(** * pulse_adjoint: constitutive laws, optimisation targets and the
      reduced-functional wrapper, embedded in Rocq.

    The embedding follows the three source files

    - [pulse_adjoint/material.py]          (modules [Material], [Energy],
                                            [Guccione]),
    - [optimization_targets.py]            (modules [VolumeTarget],
                                            [RegionalStrainTarget], [TargetLog],
                                            [Regularization], [RegularizationOps]),
    - [pulse_adjoint/setup_optimization.py] (modules [ReducedFunctional],
                                            [ReducedFunctionalOps],
                                            [RegionalParameter], [MergeControl],
                                            [Measurements], [BaseExpression]).

    UFL expressions are symbolic descriptions of real-valued fields, so the
    constitutive math is modelled point-wise over [R].  The driver handles
    Python floats ([np.inf]), which are modelled by binary64 primitive
    floats.  Python exceptions are values of [pyerr] carried by [result]. *)

From Stdlib Require Import Floats.PrimFloat.
From Stdlib Require Import Reals Lra Lia ZArith List String.
From stdpp Require Import gmap strings.
Import ListNotations.
Local Open Scope R_scope.
Local Open Scope string_scope.

(** ** Python exceptions and fallible computations *)

Inductive pyerr : Type :=
| AssertionError (msg : string)
| AttributeError (attr : string)
| UnboundLocalError (var : string)
| IndexError
| TypeError
| RuntimeError (msg : string).

Inductive result (A : Type) : Type :=
| Ok (a : A)
| Raise (e : pyerr).
Arguments Ok {A} a.
Arguments Raise {A} e.

Definition bind {A B : Type} (r : result A) (k : A -> result B) : result B :=
  match r with
  | Ok a => k a
  | Raise e => Raise e
  end.

Notation "'do' x <- r ; k" := (bind r (fun x => k))
  (at level 10, x name, r at level 100, k at level 200).

(** ** UFL tensor algebra, point-wise over the reals *)

Module Ufl.

Definition vec := nat -> R.
Definition mat := nat -> nat -> R.

(** [sumn n f] is f 0 + ... + f (n-1). *)
Fixpoint sumn (n : nat) (f : nat -> R) : R :=
  match n with
  | O => 0
  | S k => sumn k f + f k
  end.

(** A tensor expression carries its geometric dimension
    ([F.geometric_dimension()], [find_geometric_dimension(F)]). *)
Record Tensor : Type := mkTensor {
  geometric_dimension : nat;
  comp : mat
}.

Definition dot (d : nat) (u v : vec) : R := sumn d (fun i => u i * v i).
Definition transpose (A : mat) : mat := fun i j => A j i.
Definition mmul (d : nat) (A B : mat) : mat :=
  fun i j => sumn d (fun k => A i k * B k j).
Definition mvec (d : nat) (A : mat) (v : vec) : vec :=
  fun i => sumn d (fun k => A i k * v k).
Definition tr (d : nat) (A : mat) : R := sumn d (fun i => A i i).
Definition outer (u v : vec) : mat := fun i j => u i * v j.
Definition Identity : mat := fun i j => if Nat.eqb i j then 1 else 0.
Definition smul (c : R) (A : mat) : mat := fun i j => c * A i j.
Definition madd (A B : mat) : mat := fun i j => A i j + B i j.
Definition msub (A B : mat) : mat := fun i j => A i j - B i j.
Definition vscale (c : R) (v : vec) : vec := fun i => c * v i.
Definition vadd (u v : vec) : vec := fun i => u i + v i.

(** [conditional(ge(x, 0.0), t, f)] *)
Definition conditional_ge0 (x t f : R) : R :=
  if Rle_dec 0 x then t else f.

(** Determinant of a 3x3 tensor ([det]) and the transposed inverse
    ([inv(F).T]), the latter as the cofactor matrix over the determinant. *)
Definition det3 (A : mat) : R :=
  let a := A 0%nat 0%nat in let b := A 0%nat 1%nat in let c := A 0%nat 2%nat in
  let d := A 1%nat 0%nat in let e := A 1%nat 1%nat in let f := A 1%nat 2%nat in
  let g := A 2%nat 0%nat in let h := A 2%nat 1%nat in let k := A 2%nat 2%nat in
  a * (e * k - f * h) - b * (d * k - f * g) + c * (d * h - e * g).

Definition cofactor3 (A : mat) : mat :=
  fun i j =>
    let i1 := ((i + 1) mod 3)%nat in let i2 := ((i + 2) mod 3)%nat in
    let j1 := ((j + 1) mod 3)%nat in let j2 := ((j + 2) mod 3)%nat in
    A i1 j1 * A i2 j2 - A i1 j2 * A i2 j1.

Definition inv3T (A : mat) : mat := smul (/ det3 A) (cofactor3 A).

End Ufl.

(** ** material.py *)

Module Material.
Import Ufl.

(** [subplus] and [heaviside] of material.py, lines 22-26. *)
Definition subplus (x : R) : R := conditional_ge0 x x 0.
Definition heaviside (x : R) : R := conditional_ge0 x 1 0.

(** Parameters of the two subclasses that go through [Material.__init__].
    (Guccione overrides [strain_energy] and never calls it.) *)
Inductive Params : Type :=
| HOParams (a a_f b b_f : R)
| NHParams (mu : R).

(** The attributes of a constructed material.  [gamma] is the activation
    at the point under consideration ([Constant(0)] when omitted; a
    [RegionalGamma] is replaced by its [get_function()] value). *)
Record Material : Type := mkMaterial {
  f0 : option vec;
  s0 : option vec;
  n0 : option vec;
  gamma : R;
  params : Params;
  _active_model : string;
  _T_ref : R
}.

Definition active_models : list string :=
  ["active_stress"; "active_strain"; "active_strain_rossi"].

(** [x in lst] for Python strings. *)
Definition str_in (x : string) (lst : list string) : bool :=
  existsb (String.eqb x) lst.

(** [Material.__init__(self, T_ref)], lines 29-37, run on the attributes
    the subclass constructor has already set. *)
Definition Material__init__ (f0 s0 n0 : option vec) (gamma : R) (p : Params)
    (active_model : string) (T_ref : option R) : result Material :=
  if str_in active_model active_models then
    let t := match T_ref with
             | None => if String.eqb active_model "active_stress"
                       then 300 else 1
             | Some t => t
             end in
    Ok (mkMaterial f0 s0 n0 gamma p active_model t)
  else
    Raise (AssertionError
             ("The active model '" ++ active_model ++ "' is not implemented.")).

Definition HO_default_parameters : Params :=
  HOParams (228 / 100) (1685 / 1000) (9726 / 1000) (15779 / 1000).

Definition NH_default_parameters : Params := NHParams (385 / 1000).

Definition or_default {A : Type} (o : option A) (d : A) : A :=
  match o with Some a => a | None => d end.

(** [HolzapfelOgden.__init__], lines 280-300.  The keyword defaults of
    the Python signature are the [None] arguments here, except
    [active_model], whose default is ["active_strain"]. *)
Definition HolzapfelOgden (f0 : option vec) (gamma : option R)
    (params : option (R * R * R * R)) (active_model : string)
    (s0 n0 : option vec) (T_ref : option R) : result Material :=
  let g := or_default gamma 0 in
  let p := match params with
           | None => HO_default_parameters
           | Some (a, a_f, b, b_f) => HOParams a a_f b b_f
           end in
  Material__init__ f0 s0 n0 g p active_model T_ref.

(** [NeoHookean.__init__], lines 458-476. *)
Definition NeoHookean (f0 : option vec) (gamma : option R)
    (params : option R) (active_model : string)
    (s0 n0 : option vec) (T_ref : option R) : result Material :=
  let g := or_default gamma 0 in
  let p := match params with
           | None => NH_default_parameters
           | Some mu => NHParams mu
           end in
  Material__init__ f0 s0 n0 g p active_model T_ref.

(** [Material.Wactive(gamma, I4f = 0, diff = 0)], lines 146-156.  A Python
    function that falls off its end returns [None]. *)
Definition Wactive (m : Material) (gamma I4f : R) (diff : Z) : option R :=
  if String.eqb (_active_model m) "active_stress" then
    if (diff =? 0)%Z then Some (_T_ref m * gamma * I4f)
    else if (diff =? 1)%Z then Some gamma
    else None
  else Some 0.

(** Invariants, lines 158-178. *)
Definition I1 (m : Material) (F : Tensor) : R :=
  let d := geometric_dimension F in
  tr d (mmul d (transpose (comp F)) (comp F)).

Definition I4f (m : Material) (F : Tensor) : R :=
  match f0 m with
  | None => 0
  | Some f =>
      let d := geometric_dimension F in
      dot d (mvec d (mmul d (transpose (comp F)) (comp F)) f) f
  end.

(** [Material.I1e], lines 218-247.  [mgamma] is bound only under the two
    active-strain tags. *)
Definition mgamma_of (m : Material) (gamma : R) : result R :=
  if String.eqb (_active_model m) "active_strain" then Ok (1 - gamma)
  else if String.eqb (_active_model m) "active_strain_rossi" then Ok (1 + gamma)
  else Raise (UnboundLocalError "mgamma").

Definition I1e (m : Material) (F : Tensor) (gamma : R) : result R :=
  let i1 := I1 m F in
  let i4f := I4f m F in
  let d := Z.of_nat (geometric_dimension F) in
  if String.eqb (_active_model m) "active_stress" then Ok i1
  else
    do mgamma <- mgamma_of m gamma;
    Ok (powerRZ mgamma (4 - d) * i1
        + (1 / mgamma ^ 2 - powerRZ mgamma (4 - d)) * i4f).

(** [Material.I4fe], lines 251-275. *)
Definition I4fe (m : Material) (F : Tensor) (gamma : R) : result R :=
  let i4f := I4f m F in
  if String.eqb (_active_model m) "active_stress" then Ok i4f
  else
    do mgamma <- mgamma_of m gamma;
    Ok (1 / mgamma ^ 2 * i4f).

(** [HolzapfelOgden.W_1] (lines 309-331) and [NeoHookean.W_1]
    (lines 481-490), dispatched on the subclass. *)
Definition W_1 (m : Material) (I_1 : R) (diff : Z) (dim : nat) : option R :=
  match params m with
  | HOParams a _ b _ =>
      if (diff =? 0)%Z then Some (a / (2 * b) * (exp (b * (I_1 - 3)) - 1))
      else if (diff =? 1)%Z then Some (a / 2 * exp (b * (I_1 - 3)))
      else if (diff =? 2)%Z then Some (a * b / 2 * exp (b * (I_1 - 3)))
      else None
  | NHParams mu =>
      if (diff =? 0)%Z then Some (5 / 10 * mu * (I_1 - INR dim))
      else if (diff =? 1)%Z then Some (5 / 10 * mu)
      else if (diff =? 2)%Z then Some 0
      else None
  end.

(** [HolzapfelOgden.W_4], lines 333-361, on parameters [a = a_f],
    [b = b_f].  The early return on [I_4 == 0] is kept; at that value the
    gated expressions below are 0 as well. *)
Definition HO_W_4 (a b : R) (I_4 : R) (diff : Z) : option R :=
  if Req_dec_T I_4 0 then Some 0
  else if (diff =? 0)%Z then
    Some (a / (2 * b) * heaviside (I_4 - 1) * (exp (b * (I_4 - 1) ^ 2) - 1))
  else if (diff =? 1)%Z then
    Some (a * subplus (I_4 - 1) * exp (b * (I_4 - 1) ^ 2))
  else if (diff =? 2)%Z then
    Some (a * heaviside (I_4 - 1)
          * (1 + 2 * b * (I_4 - 1) ^ 2)
          * exp (b * (I_4 - 1) ^ 2))
  else None.

(** [W_4] dispatched on the subclass ([NeoHookean.W_4] returns 0). *)
Definition W_4 (m : Material) (I_4 : R) (diff : Z) : option R :=
  match params m with
  | HOParams _ a_f _ b_f => HO_W_4 a_f b_f I_4 diff
  | NHParams _ => Some 0
  end.

(** [W_4] as a real function of [I_4]; [None] (no return value) reads 0. *)
Definition W_4_fun (a b : R) (diff : Z) (I_4 : R) : R :=
  match HO_W_4 a b I_4 diff with Some w => w | None => 0 end.

(** [Material.CauchyStress(F, p)], lines 82-144. *)
Definition CauchyStress (m : Material) (F : Tensor) (p : R) : result mat :=
  match f0 m with
  | None => Raise TypeError
  | Some fib =>
      let gamma := gamma m in
      let d := geometric_dimension F in
      let B := mmul d (comp F) (transpose (comp F)) in
      let f := mvec d (comp F) fib in
      let f := vscale (/ sqrt (dot d f f)) f in
      let ff := outer f f in
      let I := Identity in
      let i1 := I1 m F in
      let i4f := I4f m F in
      match W_1 m i1 1 d, W_4 m i4f 1, Wactive m gamma 0 1 with
      | Some w1, Some w4f, Some wactive =>
          Ok (msub (madd (madd (smul (2 * w1) B) (smul (2 * w4f) ff))
                         (smul (2 * wactive) ff))
                   (smul p I))
      | _, _, _ => Raise TypeError
      end
  end.

(** The stress as the specification words it: as [CauchyStress], with the
    activation term the derivative of [T_ref*gamma*I4f] in [I4f]. *)
Definition CauchyStress_spec (m : Material) (F : Tensor) (p : R) : result mat :=
  match f0 m with
  | None => Raise TypeError
  | Some fib =>
      let gamma := gamma m in
      let d := geometric_dimension F in
      let B := mmul d (comp F) (transpose (comp F)) in
      let f := mvec d (comp F) fib in
      let f := vscale (/ sqrt (dot d f f)) f in
      let ff := outer f f in
      let I := Identity in
      let i1 := I1 m F in
      let i4f := I4f m F in
      match W_1 m i1 1 d, W_4 m i4f 1 with
      | Some w1, Some w4f =>
          let wactive := _T_ref m * gamma in
          Ok (msub (madd (madd (smul (2 * w1) B) (smul (2 * w4f) ff))
                         (smul (2 * wactive) ff))
                   (smul p I))
      | _, _ => Raise TypeError
      end
  end.

End Material.

(** ** The finite-element collaborator: measures, forms, projections *)

Module Fem.

(** An integration measure ([dx(mesh)], a surface measure [ds(marker)], a
    subdomain measure [dmu(i)]) is a linear functional on fields. *)
Record Measure (Point : Type) : Type := mkMeasure {
  integral : (Point -> R) -> R;
  integral_ext : forall f g, (forall x, f x = g x) -> integral f = integral g;
  integral_linear : forall a f g,
      integral (fun x => a * f x + g x) = a * integral f + integral g
}.
Arguments integral {Point} _ _.

(** A UFL form: an integrand times a measure; [assemble] integrates it. *)
Record Form (Point : Type) : Type := mkForm {
  integrand : Point -> R;
  measure : Measure Point
}.
Arguments mkForm {Point} _ _.
Arguments integrand {Point} _ _.
Arguments measure {Point} _.

Definition assemble {Point : Type} (f : Form Point) : R :=
  integral (measure f) (integrand f).

(** [solve(a == L, fun)] with trial and test function in the space of
    constants ("R", 0): the trial function is the unknown constant [c], the
    only test function is 1, so the system is [a(1,1) * c = L(1)]. *)
Definition solve_R0 (a11 L1 : R) : R := L1 / a11.

(** A finite quadrature rule, the measure of a faceted surface or a mesh
    whose integrand is constant on each facet or cell. *)
Fixpoint quad_sum {Point : Type} (nodes : list (Point * R)) (f : Point -> R) : R :=
  match nodes with
  | [] => 0
  | (x, w) :: rest => w * f x + quad_sum rest f
  end.

Definition quadrature {Point : Type} (nodes : list (Point * R)) : Measure Point.
Proof.
  refine (mkMeasure Point (quad_sum nodes) _ _).
  - intros f g Hfg. induction nodes as [|[x w] rest IH]; simpl.
    + reflexivity.
    + rewrite Hfg, IH. reflexivity.
  - intros a f g. induction nodes as [|[x w] rest IH]; simpl.
    + ring.
    + rewrite IH. ring.
Defined.

End Fem.

(** ** optimization_targets.py: VolumeTarget *)

Module VolumeTarget.
Import Ufl Fem.

Section Mesh.
Context {Point : Type}.

(** A displacement field with its gradient. *)
Record Displacement : Type := mkDisplacement {
  u_at : Point -> vec;
  grad_at : Point -> mat
}.

(** The attributes of a [VolumeTarget]: the geometry handles of
    [__init__] (lines 302-315) and the three R_0 functions allocated by
    [set_target_functions]. *)
Record VolumeTarget : Type := mkVolumeTarget {
  _X : Point -> vec;
  _N : Point -> vec;
  dmu : Measure Point;
  dx : Measure Point;
  target_fun : R;
  simulated_fun : R;
  functional : R
}.

(** The integrand [vol] of [assign_simulated], lines 335-337. *)
Definition vol (self : VolumeTarget) (u : Displacement) : Point -> R :=
  fun x =>
    let F := madd (grad_at u x) Identity in
    let J := det3 F in
    (-1 / 3) * dot 3 (vadd (_X self x) (u_at u x))
                     (mvec 3 (smul J (inv3T F)) (_N self x)).

(** [assign_simulated], lines 328-341: the projection of [vol] onto the
    constants with respect to [dmu]. *)
Definition assign_simulated (self : VolumeTarget) (u : Displacement)
  : VolumeTarget :=
  let s := solve_R0 (integral (dmu self) (fun _ => 1 * 1))
                    (integral (dmu self) (fun x => vol self u x * 1)) in
  mkVolumeTarget (_X self) (_N self) (dmu self) (dx self)
                 (target_fun self) s (functional self).

(** [_set_form], line 344. *)
Definition _form (self : VolumeTarget) : R :=
  ((target_fun self - simulated_fun self) / target_fun self) ^ 2.

Definition assign_target (self : VolumeTarget) (target : R) : VolumeTarget :=
  mkVolumeTarget (_X self) (_N self) (dmu self) (dx self)
                 target (simulated_fun self) (functional self).

(** [OptimizationTarget.assign_functional], lines 100-103. *)
Definition assign_functional (self : VolumeTarget) : VolumeTarget :=
  let f := solve_R0 (integral (dx self) (fun _ => 1 * 1))
                    (integral (dx self) (fun _ => 1 * _form self)) in
  mkVolumeTarget (_X self) (_N self) (dmu self) (dx self)
                 (target_fun self) (simulated_fun self) f.

(** [OptimizationTarget.get_value], lines 120-121. *)
Definition get_value (self : VolumeTarget) : R := functional self.

End Mesh.
Arguments Displacement : clear implicits.
Arguments VolumeTarget : clear implicits.

End VolumeTarget.

(** ** optimization_targets.py: RegionalStrainTarget *)

Module RegionalStrainTarget.
Import Ufl Fem.

(** A Python 2 list comprehension [[f(i) for i in rng]] evaluated inside a
    function body: it yields the list and leaves the loop variable bound
    in the enclosing scope to the last element of [rng]. *)
Definition py2_listcomp {A : Type} (f : nat -> A) (rng : list nat)
  : list A * option nat :=
  (List.map f rng, List.last (List.map Some rng) None).

(** [range(a, b)] *)
Definition range (a b : nat) : list nat := seq a (b - a).

(** [np.zeros(n)] and item assignment on an array. *)
Definition np_zeros (n : nat) : list R := repeat 0 n.

Definition setitem {A : Type} (l : list A) (i : nat) (x : A) : result (list A) :=
  if (i <? length l)%nat then Ok (<[i := x]> l) else Raise IndexError.

Definition getitem {A : Type} (l : list A) (i : nat) : result A :=
  match l !! i with
  | Some x => Ok x
  | None => Raise IndexError
  end.

Section Mesh.
Context {Point : Type}.

(** Attributes of a target.  Functions on the R_0 spaces are their
    degree-of-freedom arrays: 3 for the strain space, 9 (row-major) for
    the weight space, 1 for the real space. *)
Record RegionalStrainTarget : Type := mkTarget {
  weights_arr : list (list R);
  dmu : nat -> Measure Point;
  dx : Measure Point;
  meshvol : R;
  target_fun : list (list R);
  simulated_fun : list (list R);
  functional : list R;
  weights : list (list R)
}.

(** [__init__], lines 130-146, with [OptimizationTarget.__init__]. *)
Definition __init__ (dx : Measure Point) (dmu : nat -> Measure Point)
    (weights : list (list R)) : RegionalStrainTarget :=
  mkTarget weights dmu dx (integral dx (fun _ => 1)) [] [] [] [].

(** [set_target_functions], lines 175-200.  The four comprehensions run
    over [range(1,18)]; the statements that fill [strain_weight] follow
    them at the same indentation and read the variable [i] they left. *)
Definition set_target_functions (self : RegionalStrainTarget)
  : result RegionalStrainTarget :=
  let '(target_fun, _) := py2_listcomp (fun _ => np_zeros 3) (range 1 18) in
  let '(simulated_fun, _) := py2_listcomp (fun _ => np_zeros 3) (range 1 18) in
  let '(functional, _) := py2_listcomp (fun _ => 0) (range 1 18) in
  let '(weights, leaked) := py2_listcomp (fun _ => np_zeros 9) (range 1 18) in
  match leaked with
  | None => Raise (UnboundLocalError "i")
  | Some i =>
      let strain_weight := np_zeros 9 in
      do row <- getitem (weights_arr self) (i - 1);
      do w0 <- getitem row 0;
      do strain_weight <- setitem strain_weight 0 w0;
      do w1 <- getitem row 1;
      do strain_weight <- setitem strain_weight 4 w1;
      do w2 <- getitem row 2;
      do strain_weight <- setitem strain_weight 8 w2;
      do weights <- setitem weights (i - 1) strain_weight;
      Ok (mkTarget (weights_arr self) (dmu self) (dx self) (meshvol self)
                   target_fun simulated_fun functional weights)
  end.

(** The diagonal weighting tensor [diag(w)] for a row [w] of the weight
    array, as the 9 row-major degrees of freedom. *)
Definition diag9 (w : list R) : list R :=
  [nth 0 w 0; 0; 0; 0; nth 1 w 0; 0; 0; 0; nth 2 w 0].

(** [dot(W, v)] for a 3x3 tensor function and a 3-vector function. *)
Definition tensor_dot (W v : list R) : list R :=
  List.map (fun r => nth (3 * r) W 0 * nth 0 v 0
                     + nth (3 * r + 1) W 0 * nth 1 v 0
                     + nth (3 * r + 2) W 0 * nth 2 v 0)
           [0; 1; 2]%nat.

Definition vsub (u v : list R) : list R :=
  List.map (fun i => nth i u 0 - nth i v 0) [0; 1; 2]%nat.

(** [e**2] for a vector-valued UFL expression is [inner(e, e)]. *)
Definition inner_self (v : list R) : R :=
  fold_right (fun x acc => x * x + acc) 0 v.

(** [_set_form], lines 202-206: the value of [self._form[i]] for the
    current functions. *)
Definition _form (self : RegionalStrainTarget) (i : nat) : R :=
  inner_self (tensor_dot (nth i (weights self) [])
                         (vsub (nth i (simulated_fun self) [])
                               (nth i (target_fun self) []))).

(** [assign_functional], lines 238-243. *)
Definition assign_functional (self : RegionalStrainTarget)
  : RegionalStrainTarget :=
  let f := List.map
             (fun i =>
                solve_R0 (integral (dx self) (fun _ => 1 * 1 / meshvol self))
                         (integral (dmu self (i + 1)) (fun _ => 1 * _form self i)))
             (range 0 17) in
  mkTarget (weights_arr self) (dmu self) (dx self) (meshvol self)
           (target_fun self) (simulated_fun self) f (weights self).

(** [assign_target], lines 213-220, and the assignment of simulated
    strains that [assign_simulated] performs segment by segment
    ([zip] stops at the shorter list). *)
Fixpoint zip_assign (funs new : list (list R)) : list (list R) :=
  match funs, new with
  | f :: fs, t :: ts => t :: zip_assign fs ts
  | fs, [] => fs
  | [], _ => []
  end.

Definition assign_target (self : RegionalStrainTarget)
    (target : list (list R)) : RegionalStrainTarget :=
  mkTarget (weights_arr self) (dmu self) (dx self) (meshvol self)
           (zip_assign (target_fun self) target) (simulated_fun self)
           (functional self) (weights self).

Definition set_simulated (self : RegionalStrainTarget)
    (sim : list (list R)) : RegionalStrainTarget :=
  mkTarget (weights_arr self) (dmu self) (dx self) (meshvol self)
           (target_fun self) (zip_assign (simulated_fun self) sim)
           (functional self) (weights self).

(** [get_value], lines 208-210: Python's [sum] over the 17 values. *)
Definition py_sum (l : list R) : R := fold_left Rplus l 0.

Definition get_value (self : RegionalStrainTarget) : R :=
  py_sum (List.map (fun i => nth i (functional self) 0) (range 0 17)).

End Mesh.
Arguments RegionalStrainTarget : clear implicits.

End RegionalStrainTarget.

(** ** optimization_targets.py: Regularization *)

Module Regularization.
Import Fem.

Section Mesh.
Context {Point : Type}.

(** Values stored in the instance dictionary of a [Regularization]. *)
Inductive PyVal : Type :=
| VStr (s : string)
| VFloat (r : R)
| VMeasure (mu : Measure Point)
| VResults (func_value : list R).

(** A Python object is its instance dictionary. *)
Definition Object : Type := gmap string PyVal.

Definition getattr (self : Object) (name : string) : result PyVal :=
  match self !! name with
  | Some v => Ok v
  | None => Raise (AttributeError name)
  end.

Definition setattr (self : Object) (name : string) (v : PyVal) : Object :=
  <[name := v]> self.

Definition as_float (v : PyVal) : result R :=
  match v with VFloat r => Ok r | _ => Raise TypeError end.

Definition as_measure (v : PyVal) : result (Measure Point) :=
  match v with VMeasure mu => Ok mu | _ => Raise TypeError end.

Definition as_str (v : PyVal) : result string :=
  match v with VStr s => Ok s | _ => Raise TypeError end.

Definition spaces : list string := ["CG_1"; "regional"; "R_0"].

(** [Regularization.__init__(mesh, space, lmbda)], lines 358-375; the
    mesh enters through its volume measure [dx(mesh)]. *)
Definition __init__ (mesh_dx : Measure Point) (space : string) (lmbda : R)
  : result Object :=
  if Material.str_in space spaces then
    let self : Object := ∅ in
    let self := setattr self "space" (VStr space) in
    let self := setattr self "lmbda" (VFloat lmbda) in
    let self := setattr self "_value" (VFloat 0) in
    let self := setattr self "meshvol"
                  (VFloat (assemble (mkForm (fun _ => 1) mesh_dx))) in
    let self := setattr self "dx" (VMeasure mesh_dx) in
    let self := setattr self "results" (VResults []) in
    Ok self
  else
    Raise (AssertionError ("Unknown regularization space " ++ space)).

(** The control function [m]: its value (one component per region for a
    regional control), its gradient, and its degree-of-freedom array
    [m.vector().array()]. *)
Record Function : Type := mkFunction {
  value_at : Point -> list R;
  grad_at : Point -> list R;
  dofs : list R
}.

Definition inner (u v : list R) : R :=
  fold_right Rplus 0 (List.map (fun p => fst p * snd p) (combine u v)).

(** [m_arr.mean()] *)
Definition mean (arr : list R) : R :=
  fold_right Rplus 0 arr / INR (length arr).

(** [get_form(m)], lines 383-400.  Attribute reads happen in evaluation
    order. *)
Definition get_form (self : Object) (m : Function) : result (Form Point) :=
  do sp <- getattr self "space";
  do sp <- as_str sp;
  if String.eqb sp "CG_1" then
    do mv <- getattr self "meshvol";
    do mv <- as_float mv;
    do mu <- getattr self "dx";
    do mu <- as_measure mu;
    Ok (mkForm (fun x => inner (grad_at m x) (grad_at m x) / mv) mu)
  else if String.eqb sp "regional" then
    let m_arr := dofs m in
    let m_mean := repeat (mean m_arr) 17 in
    let diff := fun x => List.map (fun p => fst p - snd p)
                                  (combine (value_at m x) m_mean) in
    do mv <- getattr self "mesh_vol";
    do mv <- as_float mv;
    do mu <- getattr self "dx";
    do mu <- as_measure mu;
    Ok (mkForm (fun x => inner (diff x) (diff x) / mv) mu)
  else
    do mu <- getattr self "dx";
    do mu <- as_measure mu;
    Ok (mkForm (fun x => 0) mu).

End Mesh.
Arguments PyVal : clear implicits.
Arguments Object : clear implicits.
Arguments Function : clear implicits.

End Regularization.

(** ** setup_optimization.py: MyReducedFunctional *)

Module ReducedFunctional.

(** Logging levels of the [logging] module. *)
Definition INFO : Z := 20.
Definition WARNING : Z := 30.

(** The process-wide state the call touches: the dolfin parameter
    [parameters["adjoint"]["stop_annotating"]], the level of the module
    logger, the warnings it has emitted and whether the adjoint tape is
    empty ([adj_reset]). *)
Record World : Type := mkWorld {
  stop_annotating : bool;
  logger_level : Z;
  warnings : list string;
  tape_empty : bool
}.

Definition set_stop_annotating (b : bool) (w : World) : World :=
  mkWorld b (logger_level w) (warnings w) (tape_empty w).

Definition setLevel (l : Z) (w : World) : World :=
  mkWorld (stop_annotating w) l (warnings w) (tape_empty w).

Definition log_warning (msg : string) (w : World) : World :=
  mkWorld (stop_annotating w) (logger_level w) (msg :: warnings w) (tape_empty w).

Definition adj_reset (w : World) : World :=
  mkWorld (stop_annotating w) (logger_level w) (warnings w) true.

(** The results bundle of a forward run; the total functional is an
    opaque form of the collaborator. *)
Record ForRes : Type := mkForRes {
  total_functional : nat;
  func_value : float
}.

(** The [value] argument, by the [isinstance] case that accepts it. *)
Inductive Value : Type :=
| VFunction (dofs : list float)
| VNumber (x : float)
| VEnlisted (dofs : list float)
| VArray (arr : list float).

(** The attributes of a [MyReducedFunctional] that [__call__] reads or
    writes. *)
Record Self : Type := mkSelf {
  log_level : Z;
  first_call : bool;
  nr_crashes : Z;
  iter : Z;
  func_values_lst : list float;
  controls_lst : list (list float);
  forward_times : list float;
  grad_norm_scaled : list float;
  for_res : option ForRes;
  ini_for_res : option ForRes;
  functional : option nat;
  scale : float;
  verbose : bool
}.

(** The forward model: called with the new control and the annotation
    flag, it may change the process-wide state and either returns the
    results bundle with the crash flag or raises. *)
Definition ForRun : Type :=
  list float -> bool -> World -> World * result (ForRes * bool).

(** What [__call__] returns: a float, or a pair when [return_fail]. *)
Inductive RetVal : Type :=
| RFloat (v : float)
| RPair (v : float) (crash : bool).

Definition paramvec_new_of (value : Value) : list float :=
  match value with
  | VFunction d => d
  | VNumber x => [x]
  | VEnlisted d => d
  | VArray a => a
  end.

(** The process-wide state in which [__call__] invokes the forward model
    (lines 766-806): tape reset, annotation switched on, and the logger
    raised to WARNING when the instance logs at INFO and is not verbose. *)
Definition world_at_forward (self : Self) (w : World) : World :=
  let w := adj_reset w in
  let w := set_stop_annotating false w in
  let change_log_level := (log_level self =? INFO)%Z && negb (verbose self) in
  if change_log_level then setLevel WARNING w else w.

(** The return statement, lines 869-872. *)
Definition returned (return_fail : bool) (v : float) (crash : bool) : RetVal :=
  if return_fail then RPair v crash else RFloat v.

(** [MyReducedFunctional.__call__(value, return_fail)], lines 764-872.
    [for_time] is the wall time the timer reports. *)
Definition __call__ (for_run : ForRun) (for_time : float)
    (self : Self) (value : Value) (return_fail : bool) (w : World)
  : World * Self * result RetVal :=
  let it := (iter self + 1)%Z in
  let paramvec_new := paramvec_new_of value in
  let change_log_level := (log_level self =? INFO)%Z && negb (verbose self) in
  let '(w, r) := for_run paramvec_new true (world_at_forward self w) in
  match r with
  | Raise e =>
      (w,
       mkSelf (log_level self) (first_call self) (nr_crashes self) it
              (func_values_lst self) (controls_lst self) (forward_times self)
              (grad_norm_scaled self) (for_res self) (ini_for_res self)
              (functional self) (scale self) (verbose self),
       Raise e)
  | Ok (res, crash) =>
      let forward_times := (forward_times self ++ [for_time])%list in
      let w := if change_log_level then setLevel (log_level self) w else w in
      let ini := if first_call self then Some res else ini_for_res self in
      let functional := Some (total_functional res) in
      let '(w, fv, crashes) :=
        if crash then
          (log_warning
             "Iteration limit exceeded. Return a large value of the functional" w,
           infinity, (nr_crashes self + 1)%Z)
        else (w, func_value res, nr_crashes self) in
      let func_values_lst :=
        (func_values_lst self ++ [PrimFloat.mul fv (scale self)])%list in
      let controls_lst := (controls_lst self ++ [paramvec_new])%list in
      let w := set_stop_annotating true w in
      let self' :=
        mkSelf (log_level self) false crashes it
               func_values_lst controls_lst forward_times
               (grad_norm_scaled self) (Some res) ini
               functional (scale self) (verbose self) in
      (w, self', Ok (returned return_fail (PrimFloat.mul (scale self) fv) crash))
  end.

End ReducedFunctional.

(** ** material.py: the strain energy *)

Module Energy.
Import Ufl Material.

(** [Material.strain_energy(F)], lines 41-80. *)
Definition strain_energy (m : Material) (F : Tensor) : result R :=
  let gamma := gamma m in
  do inv <- (if String.eqb (_active_model m) "active_stress"
             then Ok (I1 m F, I4f m F)
             else do i1 <- I1e m F gamma;
                  do i4f <- I4fe m F gamma;
                  Ok (i1, i4f));
  let '(i1, i4f) := inv in
  let dim := geometric_dimension F in
  match W_1 m i1 0 dim, W_4 m i4f 0, Wactive m gamma i4f 0 with
  | Some W1, Some W4f, Some Wact => Ok (W1 + W4f + Wact)
  | _, _, _ => Raise TypeError
  end.

(** [W_1] as a real function of [I_1]; [None] (no return value) reads 0. *)
Definition W_1_fun (m : Material) (diff : Z) (dim : nat) (I_1 : R) : R :=
  match W_1 m I_1 diff dim with Some w => w | None => 0 end.

End Energy.

(** ** material.py: the Guccione law *)

Module Guccione.
Import Ufl.

(** The parameter dictionary, with the keys of [default_parameters]
    (lines 381-391). *)
Record Parameters : Type := mkParameters {
  C : R;
  bf : R;
  bt : R;
  bfs : R;
  e1 : option vec;
  e2 : option vec;
  e3 : option vec;
  kappa : option R;
  Tactive : option R
}.

Definition default_parameters : Parameters :=
  mkParameters 2 8 2 4 None None None None None.

(** The keyword arguments of [__init__]: an absent keyword is [None]; a
    keyword passed as [None] is [Some None] for the optional entries. *)
Record Keywords : Type := mkKeywords {
  kw_C : option R;
  kw_bf : option R;
  kw_bt : option R;
  kw_bfs : option R;
  kw_e1 : option (option vec);
  kw_e2 : option (option vec);
  kw_e3 : option (option vec);
  kw_kappa : option (option R);
  kw_Tactive : option (option R)
}.

(** The attributes of a constructed Guccione material. *)
Record Guccione : Type := mkGuccione {
  _parameters : Parameters;
  gamma : option R;
  f0 : option vec
}.

(** [Guccione.__init__] with its keyword parameters, lines 371-378: the
    defaults updated with the keywords. *)
Definition __init__ (kw : Keywords) : Guccione :=
  let d := default_parameters in
  let p := mkParameters
             (Material.or_default (kw_C kw) (C d))
             (Material.or_default (kw_bf kw) (bf d))
             (Material.or_default (kw_bt kw) (bt d))
             (Material.or_default (kw_bfs kw) (bfs d))
             (Material.or_default (kw_e1 kw) (e1 d))
             (Material.or_default (kw_e2 kw) (e2 d))
             (Material.or_default (kw_e3 kw) (e3 d))
             (Material.or_default (kw_kappa kw) (kappa d))
             (Material.or_default (kw_Tactive kw) (Tactive d)) in
  mkGuccione p (Tactive p) (e1 p).

(** [is_isotropic], lines 393-398, and [is_incompressible], lines 402-406. *)
Definition is_isotropic (self : Guccione) : bool :=
  let p := _parameters self in
  (if Req_dec_T (bt p) 1 then true else false)
  && (if Req_dec_T (bf p) 1 then true else false)
  && (if Req_dec_T (bfs p) 1 then true else false).

Definition is_incompressible (self : Guccione) : bool :=
  match kappa (_parameters self) with None => true | Some _ => false end.

(** [inner(A, B)] of two 3x3 tensors and [inner(E*u, v)]. *)
Definition inner33 (A B : mat) : R :=
  sumn 3 (fun i => sumn 3 (fun j => A i j * B i j)).

Definition comp_in (E : mat) (u v : vec) : R := dot 3 (mvec 3 E u) v.

(** A local variable that is read: bound, or [UnboundLocalError]. *)
Definition read_local {A : Type} (name : string) (v : option A) : result A :=
  match v with Some a => Ok a | None => Raise (UnboundLocalError name) end.

(** A frame vector that enters a product: [None] is a [TypeError]. *)
Definition as_vector (v : option vec) : result vec :=
  match v with Some a => Ok a | None => Raise TypeError end.

(** [Guccione.strain_energy(F, p=None)], lines 408-452, for a 3x3 tensor
    [F].  [pow(J, -2/3)] is the real power, which is meaningful for
    [J > 0].  The locals [e1], [e2], [e3] are assigned in the anisotropic
    branch only. *)
Definition strain_energy (self : Guccione) (F : mat) : result R :=
  let params := _parameters self in
  let I := Identity in
  let J := det3 F in
  let Cg := smul (Rpower J (- (2 / 3))) (mmul 3 (transpose F) F) in
  let E := smul (5 / 10) (msub Cg I) in
  let CC := C params in
  do branch <-
    (if is_isotropic self then
       Ok (inner33 E E, (None : option (option vec)))
     else
       let l1 := e1 params in
       let l2 := e2 params in
       let l3 := e3 params in
       do v1 <- as_vector l1;
       do v2 <- as_vector l2;
       do v3 <- as_vector l3;
       let E11 := comp_in E v1 v1 in
       let E12 := comp_in E v1 v2 in
       let E13 := comp_in E v1 v3 in
       let E21 := comp_in E v2 v1 in
       let E22 := comp_in E v2 v2 in
       let E23 := comp_in E v2 v3 in
       let E31 := comp_in E v3 v1 in
       let E32 := comp_in E v3 v2 in
       let E33 := comp_in E v3 v3 in
       Ok (bf params * E11 ^ 2
           + bt params * (E22 ^ 2 + E33 ^ 2 + E23 ^ 2 + E32 ^ 2)
           + bfs params * (E12 ^ 2 + E21 ^ 2 + E13 ^ 2 + E31 ^ 2),
           Some l1));
  let '(Q, local_e1) := branch in
  let Wpassive := CC / 2 * (exp Q - 1) in
  do Wactive <-
    (match Tactive params with
     | Some _ =>
         do l1 <- read_local "e1" local_e1;
         do v1 <- as_vector l1;
         let I4 := dot 3 (mvec 3 Cg v1) v1 in
         match gamma self with
         | Some g => Ok (g / 2 * (I4 - 1))
         | None => Raise TypeError
         end
     | None => Ok 0
     end);
  Ok (Wpassive + Wactive).

End Guccione.

(** ** Python sequence indexing *)

Module Py.

(** [l[i]] for a Python integer [i]: negative indices count from the end,
    anything outside [-len, len) raises [IndexError]. *)
Definition index {A : Type} (l : list A) (i : Z) : result A :=
  let n := Z.of_nat (length l) in
  if (0 <=? i)%Z && (i <? n)%Z then
    match nth_error l (Z.to_nat i) with
    | Some x => Ok x
    | None => Raise IndexError
    end
  else if (- n <=? i)%Z && (i <? 0)%Z then
    match nth_error l (Z.to_nat (n + i)) with
    | Some x => Ok x
    | None => Raise IndexError
    end
  else Raise IndexError.

(** [l[start:end]]: negative bounds count from the end, bounds are clamped
    to the list, an empty range gives the empty list. *)
Definition clamp {A : Type} (l : list A) (i : Z) : nat :=
  let n := Z.of_nat (length l) in
  if (i <? 0)%Z then Z.to_nat (Z.max 0 (n + i)) else Z.to_nat (Z.min i n).

Definition slice {A : Type} (l : list A) (start stop : Z) : list A :=
  let s := clamp l start in
  let e := clamp l stop in
  firstn (e - s) (skipn s l).

End Py.

(** ** optimization_targets.py: the life cycle of a target *)

Module TargetLog.
Import Fem VolumeTarget.

Section Mesh.
Context {Point : Type}.

(** A volume target with the two containers [OptimizationTarget.__init__]
    (lines 46-52) gives it: the list of loaded target data and the results
    dictionary with its three lists. *)
Record Logged : Type := mkLogged {
  target : VolumeTarget Point;
  data : list R;
  res_func_value : list R;
  res_target : list R;
  res_simulated : list R
}.

(** [self.meshvol], lines 35-36. *)
Definition meshvol (self : VolumeTarget Point) : R :=
  assemble (mkForm (fun _ => 1) (dx self)).

(** [VolumeTarget.load_target_data(target_data, n)], lines 317-326. *)
Definition load_target_data (self : Logged) (target_data : list R) (n : Z)
  : result Logged :=
  do v <- Py.index target_data n;
  Ok (mkLogged (target self) (data self ++ [v])%list
               (res_func_value self) (res_target self) (res_simulated self)).

(** [OptimizationTarget.next_target(it)], lines 59-60. *)
Definition next_target (self : Logged) (it : Z) : result Logged :=
  do v <- Py.index (data self) it;
  Ok (mkLogged (assign_target (target self) v) (data self)
               (res_func_value self) (res_target self) (res_simulated self)).

(** [OptimizationTarget.save()], lines 54-57. *)
Definition save (self : Logged) : Logged :=
  mkLogged (target self) (data self)
           (res_func_value self ++ [get_value (target self)])%list
           (res_target self ++ [target_fun (target self)])%list
           (res_simulated self ++ [simulated_fun (target self)])%list.

(** [OptimizationTarget.get_functional()], lines 105-111. *)
Definition get_functional (self : VolumeTarget Point) : Form Point :=
  mkForm (fun _ => functional self / meshvol self) (dx self).

(** The calls a driver makes on a target, and their effect in sequence. *)
Inductive Call : Type :=
| LoadTargetData (target_data : list R) (n : Z)
| NextTarget (it : Z)
| AssignSimulated (u : Displacement Point)
| AssignFunctional
| Save.

Definition call (self : Logged) (c : Call) : result Logged :=
  match c with
  | LoadTargetData td n => load_target_data self td n
  | NextTarget it => next_target self it
  | AssignSimulated u =>
      Ok (mkLogged (assign_simulated (target self) u) (data self)
                   (res_func_value self) (res_target self) (res_simulated self))
  | AssignFunctional =>
      Ok (mkLogged (assign_functional (target self)) (data self)
                   (res_func_value self) (res_target self) (res_simulated self))
  | Save => Ok (save self)
  end.

Fixpoint calls (self : Logged) (cs : list Call) : result Logged :=
  match cs with
  | [] => Ok self
  | c :: rest => do self' <- call self c; calls self' rest
  end.

(** The number of [save()] calls in a sequence. *)
Definition count_saves (cs : list Call) : nat :=
  length (List.filter (fun c => match c with Save => true | _ => false end) cs).

(** Loading the time points [0 .. N-1] of a series, in order. *)
Definition load_series (self : Logged) (target_data : list R) (N : nat)
  : result Logged :=
  calls self (List.map (fun n => LoadTargetData target_data (Z.of_nat n)) (seq 0 N)).

End Mesh.
Arguments Logged : clear implicits.
Arguments Call : clear implicits.

End TargetLog.

(** ** optimization_targets.py: the regularization functional *)

Module RegularizationOps.
Import Fem Regularization.

Section Mesh.
Context {Point : Type}.

(** [lmbda*form] for a number and a form. *)
Definition scale_form (c : R) (f : Form Point) : Form Point :=
  mkForm (fun x => c * integrand f x) (measure f).

(** [get_functional(m)], lines 403-414: the new state of the object and
    the returned form. *)
Definition get_functional (self : Object Point) (m : Function Point)
  : result (Object Point * Form Point) :=
  do form <- get_form self m;
  let self := setattr self "_value" (VFloat (assemble form)) in
  do l <- getattr self "lmbda";
  do l <- as_float l;
  Ok (self, scale_form l form).

(** [get_value()], lines 417-426. *)
Definition get_value (self : Object Point) : result R :=
  do v <- getattr self "_value";
  as_float v.

(** [save()], lines 377-378. *)
Definition save (self : Object Point) : result (Object Point) :=
  do r <- getattr self "results";
  do v <- getattr self "_value";
  do v <- as_float v;
  match r with
  | VResults l => Ok (setattr self "results" (VResults (l ++ [v])%list))
  | _ => Raise TypeError
  end.

End Mesh.

End RegularizationOps.

(** ** setup_optimization.py: reset and derivative of the reduced functional *)

Module ReducedFunctionalOps.
Import ReducedFunctional.

(** The attributes of a [MyReducedFunctional] besides those [__call__]
    uses: the ones [reset] initialises and [derivative] updates. *)
Record Object : Type := mkObject {
  base : Self;
  cache : option nat;
  nr_der_calls : Z;
  backward_times : list float;
  grad_norm : list float;
  derivative_scale : float
}.

(** [lst.pop()] guarded by [if len(lst)]. *)
Definition pop_if_any {A : Type} (l : list A) : list A := removelast l.

(** [reset()], lines 874-898.  The attribute [ini_for_res] exists once a
    call has stored the initial results. *)
Definition reset (self : Object) (w : World) : World * Object :=
  let b := base self in
  let w := setLevel (log_level b) w in
  match ini_for_res b with
  | None =>
      (w,
       mkObject
         (mkSelf (log_level b) true 0 0 [] [] [] [] (for_res b) (ini_for_res b)
                 (functional b) (scale b) (verbose b))
         None 0 [] [] (derivative_scale self))
  | Some _ =>
      (w,
       mkObject
         (mkSelf (log_level b) (first_call b) (nr_crashes b) (iter b)
                 (pop_if_any (func_values_lst b)) (pop_if_any (controls_lst b))
                 (forward_times b) (pop_if_any (grad_norm_scaled b))
                 (for_res b) (ini_for_res b) (functional b) (scale b) (verbose b))
         (cache self) (nr_der_calls self) (backward_times self)
         (pop_if_any (grad_norm self)) (derivative_scale self))
  end.

(** [__call__] on the whole object. *)
Definition call (for_run : ForRun) (for_time : float) (self : Object)
    (value : Value) (return_fail : bool) (w : World)
  : World * Object * result RetVal :=
  let '(w, b, r) := __call__ for_run for_time (base self) value return_fail w in
  (w,
   mkObject b (cache self) (nr_der_calls self) (backward_times self)
            (grad_norm self) (derivative_scale self),
   r).

(** The outcome of [derivative]: the scaled gradient, or the exception
    raised for a NaN component. *)
Inductive Gradient : Type :=
| Returned (g : list float)
| RaisedException (msg : string).

(** [derivative()], lines 909-944.  [out] is the gradient the adjoint
    computes ([out[0].vector().array()], which in a serial run is also what
    [gather_broadcast] returns), [back_time] the time the timer reports and
    [norm] stands for [np.linalg.norm]. *)
Definition derivative (norm : list float -> float) (out : list float)
    (back_time : float) (self : Object) : Object * Gradient :=
  let b := base self in
  let nr := (nr_der_calls self + 1)%Z in
  let backward_times := (backward_times self ++ [back_time])%list in
  if existsb PrimFloat.is_nan out then
    (mkObject b (cache self) nr backward_times (grad_norm self)
              (derivative_scale self),
     RaisedException "NaN in adjoint gradient calculation.")
  else
    let gathered_out := out in
    let grad_norm := (grad_norm self ++ [norm gathered_out])%list in
    let grad_norm_scaled :=
      (grad_norm_scaled b
       ++ [PrimFloat.mul (PrimFloat.mul (norm gathered_out) (scale b))
                         (derivative_scale self)])%list in
    (mkObject
       (mkSelf (log_level b) (first_call b) (nr_crashes b) (iter b)
               (func_values_lst b) (controls_lst b) (forward_times b)
               grad_norm_scaled (for_res b) (ini_for_res b) (functional b)
               (scale b) (verbose b))
       (cache self) nr backward_times grad_norm (derivative_scale self),
     Returned (List.map (fun g => PrimFloat.mul (PrimFloat.mul (scale b) g)
                                               (derivative_scale self))
                        gathered_out)).

(** One evaluation request: the forward model in force, the time its run
    takes, the value and the [return_fail] flag. *)
Definition Request : Type := (ForRun * float * Value * bool)%type.

(** A series of evaluations on the same object, each starting in the state
    the previous one left (also when it raised); the outcomes are collected
    in order. *)
Fixpoint evaluations (self : Self) (w : World) (reqs : list Request)
  : World * Self * list (result RetVal) :=
  match reqs with
  | [] => (w, self, [])
  | (for_run, for_time, value, return_fail) :: rest =>
      let '(w1, self1, r) := __call__ for_run for_time self value return_fail w in
      let '(w2, self2, rs) := evaluations self1 w1 rest in
      (w2, self2, r :: rs)
  end.

Definition returned_count (rs : list (result RetVal)) : nat :=
  length (List.filter (fun r => match r with Ok _ => true | Raise _ => false end) rs).

End ReducedFunctionalOps.

(** ** setup_optimization.py: RegionalParameter *)

Module RegionalParameter.

Section SetOrder.
(** The order in which Python iterates over [set(array)]; the language
    fixes only that every element occurs exactly once. *)
Variable set_iter : list Z -> list Z.

(** The attributes of a [RegionalParameter].  The mesh function is its
    array of cell markers; a function on the piecewise-constant space is
    its array of cell values (cells numbered as in the mesh function); the
    parameter itself has one degree of freedom per region. *)
Record RegionalParameter : Type := mkRegionalParameter {
  _meshfunction : list Z;
  _values : list Z;
  _nvalues : nat;
  vector : list R;
  _ind_functions : list (list R)
}.

(** [_make_indicator_function(marker)], lines 990-999: 1.0 on the cells
    whose marker equals [marker]. *)
Definition _make_indicator_function (meshfunction : list Z) (marker : Z) : list R :=
  List.map (fun v => if (v =? marker)%Z then 1 else 0) meshfunction.

(** [RegionalParameter.__init__(meshfunction)], lines 948-970. *)
Definition __init__ (meshfunction : list Z) : RegionalParameter :=
  let values := set_iter meshfunction in
  let nvalues := length values in
  mkRegionalParameter meshfunction values nvalues (repeat 0 nvalues)
    (List.map (_make_indicator_function meshfunction) values).

(** The parameter with its degrees of freedom set to [coeffs] (what an
    assignment by the optimizer leaves). *)
Definition with_vector (self : RegionalParameter) (coeffs : list R)
  : RegionalParameter :=
  mkRegionalParameter (_meshfunction self) (_values self) (_nvalues self)
                      coeffs (_ind_functions self).

(** [_sum()], lines 1001-1008, evaluated on a cell. *)
Definition _sum (self : RegionalParameter) : result (nat -> R) :=
  match vector self, _ind_functions self with
  | c0 :: coeffs, f0 :: inds =>
      Ok (fun cell =>
            fold_left (fun fun_ cf => fun_ + fst cf * nth cell (snd cf) 0)
                      (combine coeffs inds)
                      (c0 * nth cell f0 0))
  | _, _ => Raise IndexError
  end.

(** [get_function()], lines 978-988. *)
Definition get_function (self : RegionalParameter) : result (nat -> R) :=
  _sum self.

End SetOrder.

End RegionalParameter.

(** ** setup_optimization.py: merge_control *)

Module MergeControl.

(** [sorted(vals)] on integers, by insertion. *)
Fixpoint insert_sorted (v : nat) (vals : list nat) {struct vals} : list nat :=
  match vals with
  | w :: rest => if (w <? v)%nat then w :: insert_sorted v rest else v :: vals
  | [] => [v]
  end.

Definition sorted (l : list nat) : list nat :=
  fold_right insert_sorted [] l.

(** [sfun.array()[sfun.array() == vi] = min_val] *)
Definition relabel (vi min_val : nat) (arr : list nat) : list nat :=
  List.map (fun x => if (x =? vi)%nat then min_val else x) arr.

(** The body of the loop of [merge_control] (lines 44-47) for one group of
    markers, i.e. for the integers of one colon-separated field. *)
Definition merge_group (arr : list nat) (group : list nat) : result (list nat) :=
  match sorted group with
  | [] => Raise IndexError
  | min_val :: rest => Ok (fold_left (fun a vi => relabel vi min_val a) rest arr)
  end.

(** [merge_control(patient, control_str)], lines 38-49, on the array of
    cell markers [patient.sfun.array()].  The control string is given by
    its content: [None] for the empty string, otherwise the groups of
    markers (natural numbers) its fields spell. *)
Fixpoint merge_groups (arr : list nat) (groups : list (list nat))
  : result (list nat) :=
  match groups with
  | [] => Ok arr
  | g :: rest => do arr' <- merge_group arr g; merge_groups arr' rest
  end.

Definition merge_control (sfun : list nat) (control : option (list (list nat)))
  : result (list nat) :=
  match control with
  | None => Ok sfun
  | Some groups => merge_groups sfun groups
  end.

(** Two groups without a common marker. *)
Definition disjoint_groups (g h : list nat) : Prop :=
  forall y, In y g -> ~ In y h.

(** The smallest member of a non-empty group. *)
Definition group_min (g : list nat) : nat := hd 0%nat (sorted g).

End MergeControl.

(** ** setup_optimization.py: measurements *)

Module Measurements.

Section Phases.
(** The phase names [PHASES[0]], [PHASES[1]], [PHASES[2]] of
    [adjoint_contraction_args], which is not part of these sources. *)
Variables PHASES0 PHASES1 PHASES2 : string.

(** The parameter [geometry_index]: the string "-1", or any other string,
    given by the integer [int()] reads from it. *)
Inductive GeometryIndex : Type :=
| MinusOne
| Parsed (i : Z).

(** A patient without right-ventricular data and without strain
    ([hasattr] is false for [RVP], [RVV] and [strain]).  The traces are
    arrays of binary64 numbers. *)
Record Patient : Type := mkPatient {
  pressure : list float;
  volume : list float;
  passive_filling_duration : Z;
  num_points : Z
}.

Record Params : Type := mkParams {
  phase : string;
  unload : bool;
  geometry_index : GeometryIndex;
  passive_volume_weight : float;
  active_volume_weight : float
}.

(** [np.subtract(arr, c)] *)
Definition np_subtract (arr : list float) (c : float) : list float :=
  List.map (fun x => PrimFloat.sub x c) arr.

(** [get_volume_offset(patient, params)], lines 701-715, for the left
    ventricle; [vol] is the number the call of [get_volume] returns. *)
Definition get_volume_offset (patient : Patient) (params : Params) (vol : float)
  : result float :=
  let idx := match geometry_index params with
             | MinusOne => (passive_filling_duration patient - 1)%Z
             | Parsed i => i
             end in
  do v <- Py.index (volume patient) idx;
  Ok (PrimFloat.sub v vol).

(** The measurements dictionary, with the keys this patient produces. *)
Record Measured : Type := mkMeasured {
  m_pressure : list float;
  m_volume : option (list float)
}.

(** [get_measurements(params, patient)], lines 529-665. *)
Definition get_measurements (params : Params) (patient : Patient) (vol : float)
  : result Measured :=
  let '(start, stop, weight) :=
    if String.eqb (phase params) PHASES0 then
      (0%Z, passive_filling_duration patient, passive_volume_weight params)
    else if String.eqb (phase params) PHASES1 then
      (((passive_filling_duration patient - 1)
        + (if unload params then 1 else 0))%Z,
       num_points patient, active_volume_weight params)
    else (0%Z, num_points patient, active_volume_weight params) in
  let stop := if unload params then (stop + 1)%Z else stop in
  let p_volume :=
    PrimFloat.ltb 0%float weight || String.eqb (phase params) "all" in
  do pr <- (if unload params then Ok (0%float, 0%float :: pressure patient)
            else do p0 <- Py.index (pressure patient) 0;
                 Ok (p0, pressure patient));
  let '(reference_pressure, pressure) := pr in
  let pressure := np_subtract pressure reference_pressure in
  let m_pressure := Py.slice pressure start stop in
  if p_volume then
    do volume_offset <- get_volume_offset patient params vol;
    do _ <- Py.index (volume patient) 0;
    let volume := np_subtract (volume patient) volume_offset in
    do _ <- Py.index volume 0;
    let volume := if unload params then (-1)%float :: volume else volume in
    Ok (mkMeasured m_pressure (Some (Py.slice volume start stop)))
  else Ok (mkMeasured m_pressure None).

End Phases.

End Measurements.

(** ** setup_optimization.py: BaseExpression *)

Module BaseExpression.

(** A point or vertex: a row of three binary64 coordinates. *)
Definition vertex : Type := (float * float * float)%type.

Definition coord (v : vertex) (i : nat) : float :=
  match i with
  | O => fst (fst v)
  | S O => snd (fst v)
  | _ => snd v
  end.

(** The iterator expression [Expression("t", t=0.0)] that the expressions
    of a boundary condition share. *)
Record Iterator : Type := mkIterator { t : float }.

Record BaseExpression : Type := mkBaseExpression {
  _mesh_verts : list vertex;
  _all_seg_verts : list (list vertex);
  point : Z;
  npoints : Z;
  _seg_verts : list vertex;
  _sub : string
}.

(** [__init__(mesh_verts, seg_verts, sub, it, name)], lines 1086-1119. *)
Definition __init__ (mesh_verts : list vertex) (seg_verts : list (list vertex))
    (sub : string) : result BaseExpression :=
  if Material.str_in sub ["y"; "z"] then
    do first <- Py.index seg_verts 0;
    Ok (mkBaseExpression mesh_verts seg_verts 0
          (Z.of_nat (length seg_verts) - 1) first sub)
  else Raise (AssertionError "").

(** [__next__()], lines 1121-1124. *)
Definition __next__ (self : BaseExpression) (it : Iterator)
  : result (BaseExpression * Iterator) :=
  let it := mkIterator 0%float in
  let point := (point self + 1)%Z in
  do seg <- Py.index (_all_seg_verts self) point;
  Ok (mkBaseExpression (_mesh_verts self) (_all_seg_verts self) point
                       (npoints self) seg (_sub self),
      it).

(** [reset()], lines 1126-1128. *)
Definition reset (self : BaseExpression) (it : Iterator)
  : BaseExpression * Iterator :=
  (mkBaseExpression (_mesh_verts self) (_all_seg_verts self) 0
                    (npoints self) (_seg_verts self) (_sub self),
   mkIterator 0%float).

(** The indices of the mesh vertices all three of whose coordinates equal
    those of [x], with the equality [==] of binary64: the intersection of
    the three [np.where] results. *)
Definition same_vertex (x v : vertex) : bool :=
  PrimFloat.eqb (coord x 0) (coord v 0)
  && PrimFloat.eqb (coord x 1) (coord v 1)
  && PrimFloat.eqb (coord x 2) (coord v 2).

Definition d_intersect (mesh_verts : list vertex) (x : vertex) : list nat :=
  List.filter (fun j => match nth_error mesh_verts j with
                        | Some v => same_vertex x v
                        | None => false
                        end)
              (seq 0 (length mesh_verts)).

(** The coordinate that [sub] selects: 1 for "y", 2 otherwise. *)
Definition component (self : BaseExpression) : nat :=
  if String.eqb (_sub self) "y" then 1%nat else 2%nat.

(** The local [u_prev] of [eval], lines 1143-1150: the displacement from
    the segmentation before the current one to the mesh vertex [idx]. *)
Definition u_prev (self : BaseExpression) (idx : nat) : result float :=
  do prev_seg_verts <- Py.index (_all_seg_verts self) (point self - 1);
  do m <- Py.index (_mesh_verts self) (Z.of_nat idx);
  do p <- Py.index prev_seg_verts (Z.of_nat idx);
  Ok (PrimFloat.sub (coord m (component self)) (coord p (component self))).

(** The local [u_current] of [eval], lines 1148-1152. *)
Definition u_current (self : BaseExpression) (idx : nat) : result float :=
  do m <- Py.index (_mesh_verts self) (Z.of_nat idx);
  do s <- Py.index (_seg_verts self) (Z.of_nat idx);
  Ok (PrimFloat.sub (coord m (component self)) (coord s (component self))).

(** [eval(value, x)], lines 1130-1157: the number stored in [value[0]]. *)
Definition eval (self : BaseExpression) (it : Iterator) (x : vertex)
  : result float :=
  match _mesh_verts self with
  | [] => Raise IndexError
  | _ =>
      match d_intersect (_mesh_verts self) x with
      | [] => Ok 0%float
      | [idx] =>
          do up <- u_prev self idx;
          do uc <- u_current self idx;
          Ok (PrimFloat.add up (PrimFloat.mul (t it) (PrimFloat.sub uc up)))
      | _ => Raise (AssertionError "")
      end
  end.

(** The current segmentation is the one [point] refers to. *)
Definition in_step (self : BaseExpression) : Prop :=
  (0 <= point self)%Z
  /\ Py.index (_all_seg_verts self) (point self) = Ok (_seg_verts self).

End BaseExpression.

(** ** Concrete inputs used in the examples below *)

Module Samples.
Import Ufl Fem.

(** The first basis vector, used as fibre direction. *)
Definition e1 : vec := fun i => if Nat.eqb i 0 then 1 else 0.

Definition strain_material : Material.Material :=
  Material.mkMaterial (Some e1) None None 0
    Material.HO_default_parameters "active_strain" 1.

(** An active-stress Holzapfel-Ogden material with default parameters and
    default [T_ref], unit activation, fibres along [e1]. *)
Definition stress_material : Material.Material :=
  Material.mkMaterial (Some e1) None None 1
    Material.HO_default_parameters "active_stress" 300.

(** The undeformed state: [F = Identity(3)]. *)
Definition F_id : Tensor := mkTensor 3 Identity.

(** The endocardium of a unit-cube cavity [0,1]^3, one facet per face,
    each of area 1.  Facets 0-2 are the faces x=1, y=1, z=1, facets 3-5 the
    faces through the origin.  [cube_N] is the facet normal of the wall
    mesh, which points into the cavity. *)
Definition cube_X (k : nat) : vec :=
  fun i =>
    match k with
    | 0%nat | 1%nat | 2%nat => if Nat.eqb i k then 1 else 1 / 2
    | _ => if Nat.eqb i (k - 3) then 0 else 1 / 2
    end.

Definition cube_N (k : nat) : vec :=
  fun i =>
    match k with
    | 0%nat | 1%nat | 2%nat => if Nat.eqb i k then -1 else 0
    | _ => if Nat.eqb i (k - 3) then 1 else 0
    end.

Definition cube_endo : Measure nat :=
  quadrature [(0%nat, 1); (1%nat, 1); (2%nat, 1); (3%nat, 1); (4%nat, 1); (5%nat, 1)].

(** A wall mesh of volume 2, seen through one quadrature cell. *)
Definition cube_dx : Measure nat := quadrature [(0%nat, 2)].

Definition cube_target (target simulated : R) : VolumeTarget.VolumeTarget nat :=
  VolumeTarget.mkVolumeTarget cube_X cube_N cube_endo cube_dx target simulated 0.

Definition zero_displacement : VolumeTarget.Displacement nat :=
  VolumeTarget.mkDisplacement (fun _ _ => 0) (fun _ _ _ => 0).

(** [np.ones((17,3))], the default weights of a regional strain target. *)
Definition ones_17_3 : list (list R) := repeat [1; 1; 1] 17.


Definition good_run : ReducedFunctional.ForRun :=
  fun _ _ w => (w, Ok (ReducedFunctional.mkForRes 0 2.5%float, false)).

Definition raising_run : ReducedFunctional.ForRun :=
  fun _ _ w => (w, Raise (RuntimeError "Newton solver did not converge")).

Definition fresh_self : ReducedFunctional.Self :=
  ReducedFunctional.mkSelf ReducedFunctional.INFO true 0 0 [] [] [] [] None None None
    2%float false.

Definition idle_world : ReducedFunctional.World :=
  ReducedFunctional.mkWorld true ReducedFunctional.INFO [] false.

End Samples.


(** * Properties *)

(** ** Material construction *)

Section MaterialConstruction.
Import Ufl Material.

Lemma str_in_In (x : string) (l : list string) :
  str_in x l = true <-> In x l.
Proof.
  unfold str_in. rewrite existsb_exists. split.
  - intros [y [Hy Heq]]. apply String.eqb_eq in Heq. now subst.
  - intros Hx. exists x. split; [assumption | apply String.eqb_refl].
Qed.

Lemma Material__init__ok f0 s0 n0 g p tag T_ref :
  In tag active_models ->
  Material__init__ f0 s0 n0 g p tag T_ref =
  Ok (mkMaterial f0 s0 n0 g p tag
        (match T_ref with
         | None => if String.eqb tag "active_stress" then 300 else 1
         | Some t => t
         end)).
Proof.
  intros Hin. unfold Material__init__.
  apply str_in_In in Hin. rewrite Hin. reflexivity.
Qed.

Lemma Material__init__fails f0 s0 n0 g p tag T_ref :
  ~ In tag active_models ->
  Material__init__ f0 s0 n0 g p tag T_ref =
  Raise (AssertionError ("The active model '" ++ tag ++ "' is not implemented.")).
Proof.
  intros Hnin. unfold Material__init__.
  destruct (str_in tag active_models) eqn:E; [|reflexivity].
  apply str_in_In in E. contradiction.
Qed.

(** C10: with [T_ref] omitted, a material is constructed with
    [_T_ref = 300.0] under the tag active_stress and [_T_ref = 1.0] under
    the two active-strain tags (for both subclasses that run
    [Material.__init__]); the active_stress material then has
    [Wactive(gamma, I4f, diff=0) = 300.0 * gamma * I4f]. *)
Theorem C10_T_ref_default :
  forall (f0 s0 n0 : option vec) (gamma : option R)
         (hp : option (R * R * R * R)) (np : option R),
    (exists m, HolzapfelOgden f0 gamma hp "active_stress" s0 n0 None = Ok m
               /\ _T_ref m = 300
               /\ forall g I4f, Wactive m g I4f 0 = Some (300 * g * I4f))
    /\ (exists m, NeoHookean f0 gamma np "active_stress" s0 n0 None = Ok m
               /\ _T_ref m = 300
               /\ forall g I4f, Wactive m g I4f 0 = Some (300 * g * I4f))
    /\ (exists m, HolzapfelOgden f0 gamma hp "active_strain" s0 n0 None = Ok m
               /\ _T_ref m = 1)
    /\ (exists m, HolzapfelOgden f0 gamma hp "active_strain_rossi" s0 n0 None = Ok m
               /\ _T_ref m = 1)
    /\ (exists m, NeoHookean f0 gamma np "active_strain" s0 n0 None = Ok m
               /\ _T_ref m = 1)
    /\ (exists m, NeoHookean f0 gamma np "active_strain_rossi" s0 n0 None = Ok m
               /\ _T_ref m = 1).
Proof.
  intros f0 s0 n0 gamma hp np.
  unfold HolzapfelOgden, NeoHookean.
  repeat split;
    (eexists; split;
     [ apply Material__init__ok; simpl; tauto
     | simpl; repeat split; intros; reflexivity ]).
Qed.

(** ** Active-strain invariants *)

Lemma powerRZ_4_minus_d (x : R) (d : nat) :
  (d = 2 \/ d = 3)%nat -> powerRZ x (4 - Z.of_nat d) = x ^ (4 - d).
Proof.
  intros [-> | ->]; simpl; reflexivity.
Qed.

(** C3: for a deformation gradient of geometric dimension d in {2,3},
    with mgamma = 1 - gamma under active_strain and mgamma = 1 + gamma under
    active_strain_rossi, [I1e] returns
    mgamma^(4-d)*I1 + (1/mgamma^2 - mgamma^(4-d))*I4f and [I4fe] returns
    I4f/mgamma^2; under active_stress both return the raw invariants. *)
Theorem C3_active_strain_invariants :
  forall (m : Material) (F : Tensor) (gamma : R),
    let d := geometric_dimension F in
    (d = 2 \/ d = 3)%nat ->
    (_active_model m = "active_strain" ->
       I1e m F gamma =
         Ok ((1 - gamma) ^ (4 - d) * I1 m F
             + (1 / (1 - gamma) ^ 2 - (1 - gamma) ^ (4 - d)) * I4f m F)
       /\ I4fe m F gamma = Ok (I4f m F / (1 - gamma) ^ 2))
    /\ (_active_model m = "active_strain_rossi" ->
       I1e m F gamma =
         Ok ((1 + gamma) ^ (4 - d) * I1 m F
             + (1 / (1 + gamma) ^ 2 - (1 + gamma) ^ (4 - d)) * I4f m F)
       /\ I4fe m F gamma = Ok (I4f m F / (1 + gamma) ^ 2))
    /\ (_active_model m = "active_stress" ->
       I1e m F gamma = Ok (I1 m F) /\ I4fe m F gamma = Ok (I4f m F)).
Proof.
  intros m F gamma d Hd.
  unfold I1e, I4fe, mgamma_of. fold d.
  split; [|split]; intros Htag; rewrite Htag; simpl;
    (split; [try rewrite (powerRZ_4_minus_d _ d Hd) | ]);
    try reflexivity; f_equal; unfold Rdiv; ring.
Qed.

Lemma C3_active_strain_invariants_witness :
  I4fe Samples.strain_material (mkTensor 3 Identity) (1 / 2)
  = Ok (I4f Samples.strain_material (mkTensor 3 Identity) / (1 - 1 / 2) ^ 2).
Proof.
  destruct (C3_active_strain_invariants
              Samples.strain_material (mkTensor 3 Identity) (1 / 2))
    as [Hstrain _].
  - right. reflexivity.
  - destruct (Hstrain eq_refl) as [_ H4]. exact H4.
Defined.

End MaterialConstruction.

(** ** Measures *)

Section MeasureProps.
Import Fem.
Context {Point : Type} (mu : Measure Point).

Lemma integral_zero : integral mu (fun _ => 0) = 0.
Proof.
  pose proof (integral_linear Point mu 1 (fun _ => 0) (fun _ => 0)) as H.
  cbv beta in H.
  rewrite (integral_ext Point mu (fun _ => 1 * 0 + 0) (fun _ => 0)) in H
    by (intros; ring).
  lra.
Qed.

Lemma integral_scal (c : R) (f : Point -> R) :
  integral mu (fun x => c * f x) = c * integral mu f.
Proof.
  pose proof (integral_linear Point mu c f (fun _ => 0)) as H.
  cbv beta in H. rewrite integral_zero in H.
  rewrite (integral_ext Point mu (fun x => c * f x + 0) (fun x => c * f x)) in H
    by (intros; ring).
  lra.
Qed.

Lemma integral_const (c : R) :
  integral mu (fun _ => c) = c * integral mu (fun _ => 1).
Proof.
  rewrite <- integral_scal. apply integral_ext. intros; ring.
Qed.

End MeasureProps.

(** ** Regularization *)

Section RegularizationProps.
Import Fem Regularization.
Context {Point : Type}.

Lemma Regularization__init__ok (mesh_dx : Measure Point) (space : string) (lmbda : R) :
  In space spaces ->
  exists self,
    Regularization.__init__ mesh_dx space lmbda = Ok self
    /\ self !! "space" = Some (VStr space)
    /\ self !! "meshvol" = Some (VFloat (integral mesh_dx (fun _ => 1)))
    /\ self !! "dx" = Some (VMeasure mesh_dx)
    /\ self !! "mesh_vol" = None.
Proof.
  intros Hin. unfold Regularization.__init__.
  apply str_in_In in Hin. rewrite Hin.
  eexists. split; [reflexivity|].
  unfold setattr, assemble. simpl.
  repeat split; simplify_map_eq; reflexivity.
Qed.

(** C6: what [get_form] returns for each admissible space.  Under "CG_1"
    it is the form of |grad m|^2 over the mesh volume; under "R_0" it is the
    zero form, whose assembled value is 0 for every control; under
    "regional" the call raises [AttributeError] on the attribute [mesh_vol],
    which [__init__] never sets (it sets [meshvol]), so no penalty form is
    returned. *)
Theorem C6_get_form_by_space :
  forall (mesh_dx : Measure Point) (lmbda : R) (m : Function Point),
    (do self <- Regularization.__init__ mesh_dx "CG_1" lmbda; get_form self m)
    = Ok (mkForm (fun x => inner (grad_at m x) (grad_at m x)
                           / integral mesh_dx (fun _ => 1)) mesh_dx)
    /\ (do self <- Regularization.__init__ mesh_dx "regional" lmbda; get_form self m)
       = Raise (AttributeError "mesh_vol")
    /\ (exists form,
          (do self <- Regularization.__init__ mesh_dx "R_0" lmbda; get_form self m)
          = Ok form
          /\ assemble form = 0).
Proof.
  intros mesh_dx lmbda m.
  split; [|split].
  - destruct (Regularization__init__ok mesh_dx "CG_1" lmbda)
      as [self [-> [Hs [Hv [Hd _]]]]]; [simpl; tauto|].
    simpl. unfold get_form, getattr. rewrite Hs, Hv, Hd. reflexivity.
  - destruct (Regularization__init__ok mesh_dx "regional" lmbda)
      as [self [-> [Hs [_ [_ Hm]]]]]; [simpl; tauto|].
    simpl. unfold get_form, getattr. rewrite Hs, Hm. reflexivity.
  - destruct (Regularization__init__ok mesh_dx "R_0" lmbda)
      as [self [-> [Hs [_ [Hd _]]]]]; [simpl; tauto|].
    simpl. unfold get_form, getattr. rewrite Hs, Hd. simpl.
    eexists. split; [reflexivity|].
    unfold assemble. simpl. apply integral_zero.
Qed.

End RegularizationProps.

(** ** Construction-time checks *)

(** C7: constructing a HolzapfelOgden or NeoHookean material succeeds
    exactly for the tags active_stress, active_strain, active_strain_rossi
    and otherwise fails, in the constructor, with the assertion error of
    [Material.__init__]; constructing a Regularization succeeds exactly for
    the spaces CG_1, regional, R_0 and otherwise fails with the assertion
    error of [Regularization.__init__]. *)
Theorem C7_construction_checks_tag :
  forall (Point : Type) (f0 s0 n0 : option Ufl.vec) (gamma T_ref : option R)
         (hp : option (R * R * R * R)) (np : option R)
         (mesh_dx : Fem.Measure Point) (lmbda : R) (tag : string),
    (In tag Material.active_models ->
       (exists m, Material.HolzapfelOgden f0 gamma hp tag s0 n0 T_ref = Ok m)
       /\ (exists m, Material.NeoHookean f0 gamma np tag s0 n0 T_ref = Ok m))
    /\ (~ In tag Material.active_models ->
       (exists msg, Material.HolzapfelOgden f0 gamma hp tag s0 n0 T_ref
                    = Raise (AssertionError msg))
       /\ (exists msg, Material.NeoHookean f0 gamma np tag s0 n0 T_ref
                       = Raise (AssertionError msg)))
    /\ (In tag Regularization.spaces ->
       exists self, Regularization.__init__ mesh_dx tag lmbda = Ok self)
    /\ (~ In tag Regularization.spaces ->
       exists msg, Regularization.__init__ mesh_dx tag lmbda
                   = Raise (AssertionError msg)).
Proof.
  intros Point f0 s0 n0 gamma T_ref hp np mesh_dx lmbda tag.
  unfold Material.HolzapfelOgden, Material.NeoHookean.
  split; [|split; [|split]].
  - intros Hin. split; eexists; apply Material__init__ok; assumption.
  - intros Hnin. split; eexists; apply Material__init__fails; assumption.
  - intros Hin.
    destruct (Regularization__init__ok mesh_dx tag lmbda Hin) as [self [H _]].
    exists self. exact H.
  - intros Hnin. unfold Regularization.__init__.
    destruct (Material.str_in tag Regularization.spaces) eqn:E.
    + apply str_in_In in E. contradiction.
    + eexists. reflexivity.
Qed.

(** ** The reduced functional *)

Section ReducedFunctionalProps.
Import ReducedFunctional.

Lemma call_returns (for_run : ForRun) (for_time : float) (self : Self)
    (value : Value) (return_fail : bool) (w w1 : World)
    (res : ForRes) (crash : bool) :
  for_run (paramvec_new_of value) true (world_at_forward self w)
    = (w1, Ok (res, crash)) ->
  let fv := if crash then infinity else func_value res in
  exists w' self',
    __call__ for_run for_time self value return_fail w
      = (w', self', Ok (returned return_fail (PrimFloat.mul (scale self) fv) crash))
    /\ stop_annotating w' = true
    /\ nr_crashes self' = (if crash then nr_crashes self + 1 else nr_crashes self)%Z
    /\ func_values_lst self'
       = (func_values_lst self ++ [PrimFloat.mul fv (scale self)])%list.
Proof.
  intros Hrun fv. unfold __call__. rewrite Hrun.
  destruct crash; simpl; eexists; eexists; repeat split; reflexivity.
Qed.

Lemma call_raises (for_run : ForRun) (for_time : float) (self : Self)
    (value : Value) (return_fail : bool) (w w1 : World) (e : pyerr) :
  for_run (paramvec_new_of value) true (world_at_forward self w)
    = (w1, Raise e) ->
  exists self',
    __call__ for_run for_time self value return_fail w = (w1, self', Raise e).
Proof.
  intros Hrun. unfold __call__. rewrite Hrun. eexists. reflexivity.
Qed.


(** C9 (as amended): whenever [__call__] returns a value -- after a normal
    or a crashed forward run -- annotation has been switched off again
    ([stop_annotating = True]); when the forward run raises, the exception
    leaves [__call__] from the point of the forward call, with the
    process-wide state exactly as the forward run left it. *)
Theorem C9_annotation_off_on_return :
  forall (for_run : ForRun) (for_time : float) (self : Self) (value : Value)
         (return_fail : bool) (w : World),
    match __call__ for_run for_time self value return_fail w with
    | (w', _, Ok _) => stop_annotating w' = true
    | (w', _, Raise e) =>
        for_run (paramvec_new_of value) true (world_at_forward self w)
        = (w', Raise e)
    end.
Proof.
  intros for_run for_time self value return_fail w.
  destruct (for_run (paramvec_new_of value) true (world_at_forward self w))
    as [w1 [[res crash] | e]] eqn:Hrun.
  - destruct (call_returns for_run for_time self value return_fail w w1 res crash Hrun)
      as [w' [self' [-> [Hoff _]]]].
    exact Hoff.
  - destruct (call_raises for_run for_time self value return_fail w w1 e Hrun)
      as [self' ->].
    reflexivity.
Qed.

End ReducedFunctionalProps.


(** The claim of C9 as stated fails: a forward run that raises leaves
    [__call__] with annotation still switched on. *)
Lemma C9_counterexample :
  ~ (forall (for_run : ReducedFunctional.ForRun) (for_time : float)
            (self : ReducedFunctional.Self) (value : ReducedFunctional.Value)
            (return_fail : bool) (w : ReducedFunctional.World),
        ReducedFunctional.stop_annotating
          (fst (fst (ReducedFunctional.__call__
                       for_run for_time self value return_fail w))) = true).
Proof.
  intros H.
  specialize (H Samples.raising_run 1%float Samples.fresh_self
                (ReducedFunctional.VNumber 3%float) false Samples.idle_world).
  vm_compute in H. discriminate H.
Qed.

Lemma C7_construction_checks_tag_witness :
  (exists m, Material.HolzapfelOgden None None None "active_stress" None None None
             = Ok m)
  /\ (exists msg, Material.NeoHookean None None None "active" None None None
                  = Raise (AssertionError msg))
  /\ (exists self, Regularization.__init__ Samples.cube_dx "R_0" 0 = Ok self)
  /\ (exists msg, Regularization.__init__ Samples.cube_dx "CG_2" 0
                  = Raise (AssertionError msg)).
Proof.
  pose proof (C7_construction_checks_tag nat None None None None None None None
                Samples.cube_dx 0 "active_stress") as [Hok _].
  pose proof (C7_construction_checks_tag nat None None None None None None None
                Samples.cube_dx 0 "active") as [_ [Hbad _]].
  pose proof (C7_construction_checks_tag nat None None None None None None None
                Samples.cube_dx 0 "R_0") as [_ [_ [Hsp _]]].
  pose proof (C7_construction_checks_tag nat None None None None None None None
                Samples.cube_dx 0 "CG_2") as [_ [_ [_ Hbsp]]].
  repeat split.
  - apply Hok. simpl. tauto.
  - apply Hbad. simpl. intros [H | [H | [H | []]]]; discriminate H.
  - apply Hsp. simpl. tauto.
  - apply Hbsp. simpl. intros [H | [H | [H | []]]]; discriminate H.
Defined.

(** ** Regional strain target *)

Section RegionalStrainProps.
Import Fem RegionalStrainTarget.
Context {Point : Type}.

Lemma form_zero_misfit (t : RegionalStrainTarget Point) (i : nat) :
  nth i (simulated_fun t) [] = nth i (target_fun t) [] ->
  _form t i = 0.
Proof.
  intros Heq. unfold _form. rewrite Heq.
  unfold vsub, tensor_dot, inner_self. simpl. ring.
Qed.

Lemma py_sum_zeros (l : list R) :
  Forall (fun x => x = 0) l -> py_sum l = 0.
Proof.
  unfold py_sum. intros H.
  assert (G : forall acc, fold_left Rplus l acc = acc).
  { induction H as [|x l Hx _ IH]; intros acc; simpl.
    - reflexivity.
    - rewrite IH. subst x. ring. }
  apply G.
Qed.

Lemma get_value_zero_misfit (t : RegionalStrainTarget Point) :
  simulated_fun t = target_fun t ->
  get_value (assign_functional t) = 0.
Proof.
  intros Heq.
  assert (Hall : forall v, In v (functional (assign_functional t)) -> v = 0).
  { intros v Hin. unfold assign_functional in Hin. cbn [functional] in Hin.
    apply List.in_map_iff in Hin. destruct Hin as [j [<- _]].
    unfold solve_R0.
    rewrite (integral_ext Point (dmu t (j + 1)) _ (fun _ => 0)).
    - rewrite integral_zero. unfold Rdiv. ring.
    - intros _. rewrite form_zero_misfit; [ring | now rewrite Heq]. }
  unfold get_value. apply py_sum_zeros.
  apply List.Forall_forall. intros x Hx.
  apply List.in_map_iff in Hx. destruct Hx as [i [<- _]].
  destruct (List.nth_in_or_default i (functional (assign_functional t)) 0)
    as [Hin | Hdef]; [apply Hall; exact Hin | exact Hdef].
Qed.

(** C5: what [set_target_functions] leaves in [weights] for a 17-by-3
    weight array [w]: the weight functions of segments 1..16 are the zero
    tensor and only segment 17 carries [diag(w[16])] (the assignment runs
    once, after the comprehensions, with [i = 17]).  Each form is the squared
    norm of weight_i . (simulated_i - target_i), and [get_value] sums the 17
    functional values, which is 0 when simulated and target agree. *)
Theorem C5_only_last_segment_weighted :
  forall (mesh_dx : Measure Point) (mesh_dmu : nat -> Measure Point)
         (w : list (list R)),
    length w = 17%nat ->
    Forall (fun row => length row = 3%nat) w ->
    exists t,
      set_target_functions (RegionalStrainTarget.__init__ mesh_dx mesh_dmu w) = Ok t
      /\ (forall k, (k < 16)%nat -> weights t !! k = Some (np_zeros 9))
      /\ weights t !! 16%nat = Some (diag9 (nth 16 w []))
      /\ (forall sim, get_value
                        (assign_functional (set_simulated (assign_target t sim) sim))
                      = 0).
Proof.
  intros mesh_dx mesh_dmu w Hlen Hrows.
  do 16 (destruct w as [|? w]; [discriminate Hlen|]).
  destruct w as [|r16 w]; [discriminate Hlen|].
  destruct w; [|discriminate Hlen].
  assert (H16 : length r16 = 3%nat).
  { rewrite List.Forall_forall in Hrows. apply Hrows. simpl. tauto. }
  destruct r16 as [|a [|b [|c [|? ?]]]]; try discriminate H16.
  eexists. split; [reflexivity|]. cbn [weights].
  split; [|split].
  - intros k Hk. do 16 (destruct k as [|k]; [reflexivity|]). lia.
  - reflexivity.
  - intros sim. apply get_value_zero_misfit. reflexivity.
Qed.

End RegionalStrainProps.

Lemma C5_only_last_segment_weighted_witness :
  exists t,
    RegionalStrainTarget.set_target_functions
      (RegionalStrainTarget.__init__ Samples.cube_dx (fun _ => Samples.cube_dx)
         Samples.ones_17_3) = Ok t
    /\ RegionalStrainTarget.weights t !! 0%nat = Some (RegionalStrainTarget.np_zeros 9)
    /\ RegionalStrainTarget.weights t !! 16%nat
       = Some (RegionalStrainTarget.diag9 [1; 1; 1]).
Proof.
  destruct (C5_only_last_segment_weighted Samples.cube_dx (fun _ => Samples.cube_dx)
              Samples.ones_17_3)
    as [t [Hset [Hzero [Hlast _]]]].
  - reflexivity.
  - unfold Samples.ones_17_3. simpl. repeat constructor.
  - exists t. split; [exact Hset|]. split; [apply Hzero; lia | exact Hlast].
Defined.

(** ** Volume target *)

Section VolumeTargetProps.
Import Ufl Fem VolumeTarget.

Lemma assign_simulated_is_mean {Point : Type}
    (self : VolumeTarget Point) (u : Displacement Point) :
  simulated_fun (assign_simulated self u)
  = integral (dmu self) (vol self u) / integral (dmu self) (fun _ => 1).
Proof.
  unfold assign_simulated, solve_R0. cbn [simulated_fun].
  rewrite (integral_ext Point (dmu self) (fun _ => 1 * 1) (fun _ => 1))
    by (intros; ring).
  rewrite (integral_ext Point (dmu self) (fun x => vol self u x * 1) (vol self u))
    by (intros; ring).
  reflexivity.
Qed.

Lemma functional_is_relative_error {Point : Type} (self : VolumeTarget Point) :
  integral (dx self) (fun _ => 1) <> 0 ->
  get_value (assign_functional self)
  = ((target_fun self - simulated_fun self) / target_fun self) ^ 2.
Proof.
  intros Hvol.
  change (((target_fun self - simulated_fun self) / target_fun self) ^ 2)
    with (_form self).
  unfold get_value, assign_functional, solve_R0. cbn [functional].
  rewrite (integral_ext Point (dx self) (fun _ => 1 * 1) (fun _ => 1))
    by (intros; ring).
  rewrite (integral_const (dx self) (1 * _form self)).
  generalize (_form self). intros v. field. exact Hvol.
Qed.

Lemma cube_vol_integrand (t s : R) (k : nat) :
  (k < 6)%nat ->
  vol (Samples.cube_target t s) Samples.zero_displacement k
  = if (k <? 3)%nat then 1 / 3 else 0.
Proof.
  intros Hk. unfold vol, Samples.cube_target, Samples.zero_displacement.
  cbn [_X _N u_at grad_at].
  do 6 (destruct k as [|k];
        [ cbv -[Rplus Rmult Rminus Ropp Rinv Rdiv IZR];
          field_simplify; lra | ]).
  lia.
Qed.

(** C4: [assign_simulated] projects the integrand
    vol = -(1/3) (X+u) . (J inv(F)^T N) onto the constants with respect to
    the endocardial measure [dmu]: for a surface of non-zero area the value
    it stores is the integral of [vol] over the endocardium divided by the
    endocardial area, not the integral itself.  On the unit-cube cavity at
    rest the integral is 1, the area is 6 and the stored value is 1/6.  On
    a mesh of non-zero volume [assign_functional] stores the misfit
    ((target - simulated)/target)^2, which is 0 for target = simulated =
    120. *)
Theorem C4_simulated_volume_is_area_mean :
  (forall (Point : Type) (self : VolumeTarget Point) (u : Displacement Point),
      integral (dmu self) (fun _ => 1) <> 0 ->
      simulated_fun (assign_simulated self u)
      = integral (dmu self) (vol self u) / integral (dmu self) (fun _ => 1))
  /\ integral (dmu (Samples.cube_target 1 0))
              (vol (Samples.cube_target 1 0) Samples.zero_displacement) = 1
  /\ integral (dmu (Samples.cube_target 1 0)) (fun _ => 1) = 6
  /\ simulated_fun (assign_simulated (Samples.cube_target 1 0) Samples.zero_displacement)
     = 1 / 6
  /\ (forall (Point : Type) (self : VolumeTarget Point),
        integral (dx self) (fun _ => 1) <> 0 ->
        get_value (assign_functional self)
        = ((target_fun self - simulated_fun self) / target_fun self) ^ 2)
  /\ get_value (assign_functional (Samples.cube_target 120 120)) = 0.
Proof.
  assert (Hvol : integral (dmu (Samples.cube_target 1 0))
                          (vol (Samples.cube_target 1 0) Samples.zero_displacement)
                 = 1).
  { cbn [dmu Samples.cube_target].
    unfold Samples.cube_endo, quadrature. cbn [integral quad_sum].
    rewrite !cube_vol_integrand by lia. simpl. lra. }
  assert (Harea : integral (dmu (Samples.cube_target 1 0)) (fun _ => 1) = 6).
  { cbn [dmu Samples.cube_target]. unfold Samples.cube_endo, quadrature.
    cbn [integral quad_sum]. lra. }
  split; [|split; [|split; [|split; [|split]]]].
  - intros Point self u _. apply assign_simulated_is_mean.
  - exact Hvol.
  - exact Harea.
  - rewrite assign_simulated_is_mean, Hvol, Harea. reflexivity.
  - intros Point self Hdx. apply functional_is_relative_error. exact Hdx.
  - rewrite functional_is_relative_error.
    + cbn [target_fun simulated_fun Samples.cube_target]. field.
    + cbn [dx Samples.cube_target]. unfold Samples.cube_dx, quadrature.
      cbn [integral quad_sum]. lra.
Qed.

Lemma C4_simulated_volume_is_area_mean_witness :
  simulated_fun (assign_simulated (Samples.cube_target 1 0) Samples.zero_displacement)
  = integral (dmu (Samples.cube_target 1 0))
             (vol (Samples.cube_target 1 0) Samples.zero_displacement)
    / integral (dmu (Samples.cube_target 1 0)) (fun _ => 1).
Proof.
  destruct C4_simulated_volume_is_area_mean as [Hgen _].
  apply (Hgen nat (Samples.cube_target 1 0) Samples.zero_displacement).
  cbn [dmu Samples.cube_target]. unfold Samples.cube_endo, quadrature.
  cbn [integral quad_sum]. lra.
Defined.

End VolumeTargetProps.

(** ** Cauchy stress *)

Section CauchyStressProps.
Import Ufl Material.

Lemma I1_identity (m : Material) : I1 m Samples.F_id = 3.
Proof.
  cbv -[Rplus Rmult Rminus Ropp Rinv Rdiv IZR]. ring.
Qed.

Lemma I4f_identity : I4f Samples.stress_material Samples.F_id = 1.
Proof.
  cbv -[Rplus Rmult Rminus Ropp Rinv Rdiv IZR]. ring.
Qed.

Lemma subplus_0 : subplus (1 - 1) = 0.
Proof.
  unfold subplus, conditional_ge0. destruct (Rle_dec 0 (1 - 1)); lra.
Qed.

Lemma W_4_at_rest (a b : R) : HO_W_4 a b 1 1 = Some 0.
Proof.
  unfold HO_W_4. destruct (Req_dec_T 1 0) as [H | _]; [lra|].
  simpl. rewrite subplus_0. f_equal. ring.
Qed.

Lemma unit_fibre_push_forward :
  dot 3 (mvec 3 Identity Samples.e1) (mvec 3 Identity Samples.e1) = 1.
Proof.
  cbv -[Rplus Rmult Rminus Ropp Rinv Rdiv IZR]. ring.
Qed.

(** C2: the stress [CauchyStress] returns has the activation term
    [2*gamma*(f tensor f)]: [Wactive(gamma, diff=1)] is [gamma], without the
    factor [T_ref] of the derivative of [T_ref*gamma*I4f].  For the default
    Holzapfel-Ogden material in active_stress mode ([T_ref] = 300) with unit
    activation, fibres along e1, [F = Identity(3)] and [p = 0], the fibre
    component of the returned stress is a + 2 = 4.28, while the stress of
    the specification is a + 600 = 602.28. *)
Theorem C2_cauchy_stress_activation_term :
  HolzapfelOgden (Some Samples.e1) (Some 1) None "active_stress" None None None
  = Ok Samples.stress_material
  /\ Wactive Samples.stress_material 1 0 1 = Some 1
  /\ (exists S, CauchyStress Samples.stress_material Samples.F_id 0 = Ok S
                /\ S 0%nat 0%nat = 228 / 100 + 2)
  /\ (exists S, CauchyStress_spec Samples.stress_material Samples.F_id 0 = Ok S
                /\ S 0%nat 0%nat = 228 / 100 + 600).
Proof.
  split; [reflexivity|]. split; [reflexivity|].
  unfold CauchyStress, CauchyStress_spec.
  cbn [f0 gamma Samples.stress_material geometric_dimension comp Samples.F_id].
  fold Samples.stress_material. fold Samples.F_id.
  rewrite I1_identity, I4f_identity.
  unfold W_1, W_4. cbn [params Samples.stress_material HO_default_parameters].
  rewrite W_4_at_rest. cbn [Z.eqb Wactive _active_model _T_ref Samples.stress_material
                            String.eqb Ascii.eqb Bool.eqb].
  split; eexists; (split; [reflexivity|]);
    unfold msub, madd, smul, outer, vscale;
    rewrite unit_fibre_push_forward, sqrt_1;
    replace (9726 / 1000 * (3 - 3)) with 0 by lra; rewrite exp_0;
    cbv -[Rplus Rmult Rminus Ropp Rinv Rdiv IZR]; field.
Qed.

End CauchyStressProps.

(** ** Gluing a function that vanishes on one side of a point *)

Section Gluing.
Variables (f g : R -> R) (c : R).
Hypothesis f_left : forall x, x <= c -> f x = 0.
Hypothesis f_right : forall x, c <= x -> f x = g x.

Lemma glue_value : g c = 0.
Proof.
  rewrite <- f_right by lra. apply f_left. lra.
Qed.

Lemma derivable_pt_lim_glue : derivable_pt_lim g c 0 -> derivable_pt_lim f c 0.
Proof.
  intros Hg eps Heps. destruct (Hg eps Heps) as [delta Hdelta].
  exists delta. intros h Hh Hsmall.
  destruct (Rle_dec 0 h) as [Hpos | Hneg].
  - rewrite (f_right (c + h)) by lra. rewrite (f_right c) by lra.
    apply Hdelta; assumption.
  - rewrite (f_left (c + h)) by lra. rewrite (f_left c) by lra.
    replace ((0 - 0) / h - 0) with 0 by (field; exact Hh).
    rewrite Rabs_R0. exact Heps.
Qed.

Lemma continuity_pt_glue : continuity_pt g c -> continuity_pt f c.
Proof.
  intros Hg eps Heps. destruct (Hg eps Heps) as [alp [Halp Hclose]].
  exists alp. split; [exact Halp|]. intros x [HD Hdist].
  rewrite (f_left c) by lra.
  destruct (Rle_dec c x) as [Hge | Hlt].
  - rewrite (f_right x) by exact Hge. rewrite <- glue_value.
    apply Hclose. split; assumption.
  - rewrite (f_left x) by lra. simpl. unfold Rdist.
    replace (0 - 0) with 0 by ring. rewrite Rabs_R0. exact Heps.
Qed.

End Gluing.

(** ** The gated anisotropic term of the Holzapfel-Ogden law *)

Section W4Props.
Import Ufl Material.
Variables a b : R.

(** The analytic expressions on the tension side. *)
Let g0 (x : R) : R := a / (2 * b) * (exp (b * (x - 1) ^ 2) - 1).
Let g1 (x : R) : R := a * (x - 1) * exp (b * (x - 1) ^ 2).
Let g2 (x : R) : R := a * (1 + 2 * b * (x - 1) ^ 2) * exp (b * (x - 1) ^ 2).

Lemma heaviside_neg (x : R) : x < 0 -> heaviside x = 0.
Proof.
  intros Hx. unfold heaviside, conditional_ge0.
  destruct (Rle_dec 0 x); [lra | reflexivity].
Qed.

Lemma heaviside_nonneg (x : R) : 0 <= x -> heaviside x = 1.
Proof.
  intros Hx. unfold heaviside, conditional_ge0.
  destruct (Rle_dec 0 x); [reflexivity | lra].
Qed.

Lemma subplus_nonpos (x : R) : x <= 0 -> subplus x = 0.
Proof.
  intros Hx. unfold subplus, conditional_ge0.
  destruct (Rle_dec 0 x); [lra | reflexivity].
Qed.

Lemma subplus_nonneg (x : R) : 0 <= x -> subplus x = x.
Proof.
  intros Hx. unfold subplus, conditional_ge0.
  destruct (Rle_dec 0 x); [reflexivity | lra].
Qed.

Lemma W4_0_below (x : R) : x <= 1 -> HO_W_4 a b x 0 = Some 0.
Proof.
  intros Hx. unfold HO_W_4. destruct (Req_dec_T x 0); [reflexivity|].
  cbn [Z.eqb Pos.eqb]. f_equal.
  destruct (Rle_lt_or_eq_dec x 1 Hx) as [Hlt | ->].
  - rewrite heaviside_neg by lra. ring.
  - replace (b * (1 - 1) ^ 2) with 0 by ring. rewrite exp_0. ring.
Qed.

Lemma W4_0_above (x : R) : 1 <= x -> HO_W_4 a b x 0 = Some (g0 x).
Proof.
  intros Hx. unfold HO_W_4. destruct (Req_dec_T x 0); [lra|].
  cbn [Z.eqb Pos.eqb]. f_equal. rewrite heaviside_nonneg by lra. unfold g0. ring.
Qed.

Lemma W4_1_below (x : R) : x <= 1 -> HO_W_4 a b x 1 = Some 0.
Proof.
  intros Hx. unfold HO_W_4. destruct (Req_dec_T x 0); [reflexivity|].
  cbn [Z.eqb Pos.eqb]. f_equal. rewrite subplus_nonpos by lra. ring.
Qed.

Lemma W4_1_above (x : R) : 1 <= x -> HO_W_4 a b x 1 = Some (g1 x).
Proof.
  intros Hx. unfold HO_W_4. destruct (Req_dec_T x 0); [lra|].
  cbn [Z.eqb Pos.eqb]. f_equal. rewrite subplus_nonneg by lra. unfold g1. ring.
Qed.

Lemma W4_2_below (x : R) : x < 1 -> HO_W_4 a b x 2 = Some 0.
Proof.
  intros Hx. unfold HO_W_4. destruct (Req_dec_T x 0); [reflexivity|].
  cbn [Z.eqb Pos.eqb]. f_equal. rewrite heaviside_neg by lra. ring.
Qed.

Lemma W4_2_above (x : R) : 1 <= x -> HO_W_4 a b x 2 = Some (g2 x).
Proof.
  intros Hx. unfold HO_W_4. destruct (Req_dec_T x 0); [lra|].
  cbn [Z.eqb Pos.eqb]. f_equal. rewrite heaviside_nonneg by lra. unfold g2. ring.
Qed.

(** *** Derivatives of the tension-side expressions *)

Lemma quad_exponent_derivable (x : R) :
  derivable_pt_lim (fun y => b * (y - 1) ^ 2) x (2 * b * (x - 1)).
Proof.
  apply (derivable_pt_lim_ext
           (mult_real_fct b (Ranalysis1.comp (fun y => y ^ 2) (minus_fct id (fct_cte 1))))).
  - intros z. reflexivity.
  - replace (2 * b * (x - 1))
      with (b * ((INR 2 * (minus_fct id (fct_cte 1)) x ^ pred 2) * (1 - 0)))
      by (unfold minus_fct, id, fct_cte; simpl; ring).
    apply derivable_pt_lim_scal.
    apply derivable_pt_lim_comp.
    + apply derivable_pt_lim_minus;
        [apply derivable_pt_lim_id | apply derivable_pt_lim_const].
    + apply derivable_pt_lim_pow.
Qed.

Lemma exp_quad_derivable (x : R) :
  derivable_pt_lim (fun y => exp (b * (y - 1) ^ 2)) x
                   (2 * b * (x - 1) * exp (b * (x - 1) ^ 2)).
Proof.
  apply (derivable_pt_lim_ext (Ranalysis1.comp exp (fun y => b * (y - 1) ^ 2))).
  - intros z. reflexivity.
  - replace (2 * b * (x - 1) * exp (b * (x - 1) ^ 2))
      with (exp (b * (x - 1) ^ 2) * (2 * b * (x - 1))) by ring.
    apply derivable_pt_lim_comp.
    + apply quad_exponent_derivable.
    + apply derivable_pt_lim_exp.
Qed.

Lemma g0_derivable (x : R) : b <> 0 -> derivable_pt_lim g0 x (g1 x).
Proof.
  intros Hb.
  apply (derivable_pt_lim_ext
           (mult_real_fct (a / (2 * b))
              (minus_fct (fun y => exp (b * (y - 1) ^ 2)) (fct_cte 1)))).
  - intros z. reflexivity.
  - replace (g1 x)
      with (a / (2 * b) * (2 * b * (x - 1) * exp (b * (x - 1) ^ 2) - 0))
      by (unfold g1; field; exact Hb).
    apply derivable_pt_lim_scal.
    apply derivable_pt_lim_minus;
      [apply exp_quad_derivable | apply derivable_pt_lim_const].
Qed.

Lemma g1_derivable (x : R) : derivable_pt_lim g1 x (g2 x).
Proof.
  apply (derivable_pt_lim_ext
           (mult_fct (mult_real_fct a (minus_fct id (fct_cte 1)))
                     (fun y => exp (b * (y - 1) ^ 2)))).
  - intros z. unfold g1, mult_fct, mult_real_fct, minus_fct, id, fct_cte. ring.
  - replace (g2 x)
      with (a * (1 - 0) * exp (b * (x - 1) ^ 2)
            + mult_real_fct a (minus_fct id (fct_cte 1)) x
              * (2 * b * (x - 1) * exp (b * (x - 1) ^ 2)))
      by (unfold g2, mult_real_fct, minus_fct, id, fct_cte; ring).
    assert (H1 : derivable_pt_lim (mult_real_fct a (minus_fct id (fct_cte 1)))
                                  x (a * (1 - 0))).
    { apply derivable_pt_lim_scal.
      apply derivable_pt_lim_minus;
        [apply derivable_pt_lim_id | apply derivable_pt_lim_const]. }
    exact (derivable_pt_lim_mult _ (fun y => exp (b * (y - 1) ^ 2)) x _ _
             H1 (exp_quad_derivable x)).
Qed.

(** *** The three branches as real functions *)

Lemma W4f_0_below (x : R) : x <= 1 -> W_4_fun a b 0 x = 0.
Proof. intros H. unfold W_4_fun. now rewrite W4_0_below. Qed.

Lemma W4f_0_above (x : R) : 1 <= x -> W_4_fun a b 0 x = g0 x.
Proof. intros H. unfold W_4_fun. now rewrite W4_0_above. Qed.

Lemma W4f_1_below (x : R) : x <= 1 -> W_4_fun a b 1 x = 0.
Proof. intros H. unfold W_4_fun. now rewrite W4_1_below. Qed.

Lemma W4f_1_above (x : R) : 1 <= x -> W_4_fun a b 1 x = g1 x.
Proof. intros H. unfold W_4_fun. now rewrite W4_1_above. Qed.

Lemma W4f_2_below (x : R) : x < 1 -> W_4_fun a b 2 x = 0.
Proof. intros H. unfold W_4_fun. now rewrite W4_2_below. Qed.

Lemma W4f_2_above (x : R) : 1 <= x -> W_4_fun a b 2 x = g2 x.
Proof. intros H. unfold W_4_fun. now rewrite W4_2_above. Qed.

Lemma g1_at_threshold : g1 1 = 0.
Proof. unfold g1. ring. Qed.

Lemma g2_at_threshold : g2 1 = a.
Proof.
  unfold g2. replace (b * (1 - 1) ^ 2) with 0 by ring. rewrite exp_0. ring.
Qed.

Lemma W4_strictly_increasing (x y : R) :
  0 < a -> 0 < b -> 1 < x -> x < y -> W_4_fun a b 0 x < W_4_fun a b 0 y.
Proof.
  intros Ha Hb Hx Hxy.
  rewrite !W4f_0_above by lra. unfold g0.
  assert (Hc : 0 < a / (2 * b)) by (apply Rdiv_lt_0_compat; lra).
  apply Rmult_lt_compat_l; [exact Hc|].
  apply Rplus_lt_compat_r. apply exp_increasing.
  apply Rmult_lt_compat_l; [exact Hb|]. nra.
Qed.

Lemma W4_derivative (x : R) :
  b <> 0 -> derivable_pt_lim (W_4_fun a b 0) x (W_4_fun a b 1 x).
Proof.
  intros Hb. destruct (Rtotal_order x 1) as [Hlt | [-> | Hgt]].
  - rewrite W4f_1_below by lra.
    apply (derivable_pt_lim_locally_ext (fct_cte 0) _ x (x - 1) 1).
    + lra.
    + intros z Hz. unfold fct_cte. rewrite W4f_0_below by lra. reflexivity.
    + apply derivable_pt_lim_const.
  - rewrite W4f_1_below by lra.
    apply (derivable_pt_lim_glue _ g0 1 W4f_0_below W4f_0_above).
    rewrite <- g1_at_threshold. apply g0_derivable. exact Hb.
  - rewrite W4f_1_above by lra.
    apply (derivable_pt_lim_locally_ext g0 _ x 1 (x + 1)).
    + lra.
    + intros z Hz. rewrite W4f_0_above by lra. reflexivity.
    + apply g0_derivable. exact Hb.
Qed.

Lemma W4_second_derivative (x : R) :
  x <> 1 -> derivable_pt_lim (W_4_fun a b 1) x (W_4_fun a b 2 x).
Proof.
  intros Hx. destruct (Rtotal_order x 1) as [Hlt | [-> | Hgt]].
  - rewrite W4f_2_below by lra.
    apply (derivable_pt_lim_locally_ext (fct_cte 0) _ x (x - 1) 1).
    + lra.
    + intros z Hz. unfold fct_cte. rewrite W4f_1_below by lra. reflexivity.
    + apply derivable_pt_lim_const.
  - contradiction.
  - rewrite W4f_2_above by lra.
    apply (derivable_pt_lim_locally_ext g1 _ x 1 (x + 1)).
    + lra.
    + intros z Hz. rewrite W4f_1_above by lra. reflexivity.
    + apply g1_derivable.
Qed.

Lemma W4_continuous_at_threshold :
  b <> 0 -> continuity_pt (W_4_fun a b 0) 1.
Proof.
  intros Hb. apply derivable_continuous_pt.
  exists (W_4_fun a b 1 1). apply W4_derivative. exact Hb.
Qed.

Lemma W4_derivative_continuous_at_threshold :
  continuity_pt (W_4_fun a b 1) 1.
Proof.
  apply (continuity_pt_glue _ g1 1 W4f_1_below W4f_1_above).
  apply derivable_continuous_pt. exists (g2 1). apply g1_derivable.
Qed.

Lemma W4_second_derivative_jumps :
  0 < a -> ~ continuity_pt (W_4_fun a b 2) 1.
Proof.
  intros Ha Hcont. destruct (Hcont a Ha) as [alp [Halp Hclose]].
  specialize (Hclose (1 - alp / 2)).
  rewrite W4f_2_below in Hclose by lra.
  rewrite W4f_2_above, g2_at_threshold in Hclose by lra.
  simpl in Hclose. unfold Rdist in Hclose.
  assert (Hd : Rabs (0 - a) < a).
  { apply Hclose. split.
    - split; [exact I | lra].
    - replace (1 - alp / 2 - 1) with (- (alp / 2)) by ring.
      rewrite Rabs_Ropp, Rabs_pos_eq; lra. }
  replace (0 - a) with (- a) in Hd by ring.
  rewrite Rabs_Ropp, Rabs_pos_eq in Hd; lra.
Qed.

Lemma W4_no_second_derivative_at_threshold (l : R) :
  0 < a -> 0 < b -> ~ derivable_pt_lim (W_4_fun a b 1) 1 l.
Proof.
  intros Ha Hb Hder.
  assert (Heps : 0 < a / 3) by lra.
  destruct (Hder (a / 3) Heps) as [delta Hdelta].
  assert (Hd := cond_pos delta).
  pose proof (Hdelta (- (delta / 2))) as Hleft.
  pose proof (Hdelta (delta / 2)) as Hright.
  rewrite (W4f_1_below (1 + - (delta / 2))), (W4f_1_below 1) in Hleft by lra.
  rewrite (W4f_1_above (1 + delta / 2)), (W4f_1_below 1) in Hright by lra.
  assert (Hl : Rabs ((0 - 0) / - (delta / 2) - l) < a / 3).
  { apply Hleft; [lra|]. rewrite Rabs_Ropp, Rabs_pos_eq; lra. }
  assert (Hr : Rabs ((g1 (1 + delta / 2) - 0) / (delta / 2) - l) < a / 3).
  { apply Hright; [lra|]. rewrite Rabs_pos_eq; lra. }
  replace ((0 - 0) / - (delta / 2) - l) with (- l) in Hl by (field; lra).
  rewrite Rabs_Ropp in Hl.
  replace ((g1 (1 + delta / 2) - 0) / (delta / 2))
    with (a * exp (b * (1 + delta / 2 - 1) ^ 2)) in Hr
    by (unfold g1; field; lra).
  assert (Hexp : 1 < exp (b * (1 + delta / 2 - 1) ^ 2)).
  { assert (Hpos : 0 < b * (1 + delta / 2 - 1) ^ 2).
    { apply Rmult_lt_0_compat; [exact Hb|]. apply pow_lt. lra. }
    assert (Hne : b * (1 + delta / 2 - 1) ^ 2 <> 0) by lra.
    pose proof (exp_ineq1 _ Hne). lra. }
  apply Rabs_def2 in Hl. apply Rabs_def2 in Hr. nra.
Qed.

(** C1 (as amended): for a Holzapfel-Ogden material with a_f, b_f > 0,
    [W_4(I4, diff=0)] is 0 for I4 <= 1 and
    a_f/(2 b_f) (exp(b_f (I4-1)^2) - 1) for I4 > 1, strictly increasing on
    I4 > 1 and continuous at I4 = 1.  The diff=1 branch is its derivative at
    every I4, including I4 = 1, and is itself continuous there: the first
    derivative has no jump.  The diff=2 branch is the derivative of the
    diff=1 branch at every I4 other than 1; both branches vanish for I4 < 1.
    The discontinuity sits in the second derivative: the diff=2 branch is
    a_f at I4 = 1 and 0 just below, and the diff=1 branch has no derivative
    at I4 = 1. *)
Theorem C1_W4_gating :
  0 < a -> 0 < b ->
  (forall (m : Material) (a0 b0 : R),
      params m = HOParams a0 a b0 b ->
      forall I4 diff, W_4 m I4 diff = HO_W_4 a b I4 diff)
  /\ (forall I4, I4 <= 1 -> HO_W_4 a b I4 0 = Some 0)
  /\ (forall I4, 1 < I4 ->
        HO_W_4 a b I4 0 = Some (a / (2 * b) * (exp (b * (I4 - 1) ^ 2) - 1)))
  /\ (forall x y, 1 < x -> x < y -> W_4_fun a b 0 x < W_4_fun a b 0 y)
  /\ continuity_pt (W_4_fun a b 0) 1
  /\ (forall I4, derivable_pt_lim (W_4_fun a b 0) I4 (W_4_fun a b 1 I4))
  /\ continuity_pt (W_4_fun a b 1) 1
  /\ (forall I4, I4 <> 1 ->
        derivable_pt_lim (W_4_fun a b 1) I4 (W_4_fun a b 2 I4))
  /\ (forall I4, I4 < 1 ->
        HO_W_4 a b I4 1 = Some 0 /\ HO_W_4 a b I4 2 = Some 0)
  /\ HO_W_4 a b 1 2 = Some a
  /\ ~ continuity_pt (W_4_fun a b 2) 1
  /\ (forall l, ~ derivable_pt_lim (W_4_fun a b 1) 1 l).
Proof.
  intros Ha Hb.
  assert (Hb0 : b <> 0) by lra.
  split. { intros m a0 b0 Hp I4 diff. unfold W_4. rewrite Hp. reflexivity. }
  split. { exact W4_0_below. }
  split. { intros I4 H. apply W4_0_above. lra. }
  split. { intros x y. apply W4_strictly_increasing; assumption. }
  split. { apply W4_continuous_at_threshold. exact Hb0. }
  split. { intros I4. apply W4_derivative. exact Hb0. }
  split. { exact W4_derivative_continuous_at_threshold. }
  split. { exact W4_second_derivative. }
  split. { intros I4 H. split; [apply W4_1_below | apply W4_2_below]; lra. }
  split. { rewrite W4_2_above by lra. f_equal. apply g2_at_threshold. }
  split. { apply W4_second_derivative_jumps. exact Ha. }
  intros l. apply W4_no_second_derivative_at_threshold; assumption.
Qed.

End W4Props.

(** The claim of C1 as stated fails: with the default parameters
    a_f = 1.685, b_f = 15.779 the derivative of [W_4] exists at I4 = 1, is
    the value 0 of the diff=1 branch, and that branch is continuous at
    I4 = 1; there is no derivative discontinuity at the threshold. *)
Lemma C1_counterexample :
  derivable_pt_lim (Material.W_4_fun (1685 / 1000) (15779 / 1000) 0) 1 0
  /\ Material.W_4_fun (1685 / 1000) (15779 / 1000) 1 1 = 0
  /\ continuity_pt (Material.W_4_fun (1685 / 1000) (15779 / 1000) 1) 1.
Proof.
  split; [|split].
  - rewrite <- (W4f_1_below (1685 / 1000) (15779 / 1000) 1) by lra.
    apply W4_derivative. lra.
  - apply W4f_1_below. lra.
  - apply W4_derivative_continuous_at_threshold.
Qed.

Lemma C1_W4_gating_witness :
  Material.HO_W_4 (1685 / 1000) (15779 / 1000) 1 2 = Some (1685 / 1000)
  /\ ~ continuity_pt (Material.W_4_fun (1685 / 1000) (15779 / 1000) 2) 1.
Proof.
  destruct (C1_W4_gating (1685 / 1000) (15779 / 1000))
    as [_ [_ [_ [_ [_ [_ [_ [_ [_ [Hval [Hjump _]]]]]]]]]]].
  - lra.
  - lra.
  - split; [exact Hval | exact Hjump].
Defined.

(** * Further properties of the code *)

(** ** Isotropic term and strain energy *)

Section EnergyProps.
Import Ufl Material Energy.

Lemma exp_affine_derivable (b c x : R) :
  derivable_pt_lim (fun y => exp (b * (y - c))) x (b * exp (b * (x - c))).
Proof.
  apply (derivable_pt_lim_ext
           (Ranalysis1.comp exp (mult_real_fct b (minus_fct id (fct_cte c))))).
  - intros z. reflexivity.
  - replace (b * exp (b * (x - c)))
      with (exp (mult_real_fct b (minus_fct id (fct_cte c)) x) * (b * (1 - 0)))
      by (unfold mult_real_fct, minus_fct, id, fct_cte; ring).
    apply derivable_pt_lim_comp.
    + apply derivable_pt_lim_scal.
      apply derivable_pt_lim_minus;
        [apply derivable_pt_lim_id | apply derivable_pt_lim_const].
    + apply derivable_pt_lim_exp.
Qed.

Lemma scaled_derivable (k : R) (f : R -> R) (x l : R) :
  derivable_pt_lim f x l -> derivable_pt_lim (fun y => k * f y) x (k * l).
Proof.
  intros H. apply (derivable_pt_lim_ext (mult_real_fct k f)).
  - intros z. reflexivity.
  - apply derivable_pt_lim_scal. exact H.
Qed.

(** X1: the three branches of [W_1] form a derivative chain.  For a
    Holzapfel-Ogden material with b <> 0 and for every Neo-Hookean material,
    the diff=1 branch is the derivative of the diff=0 branch with respect to
    I_1 and the diff=2 branch is the derivative of the diff=1 branch, at
    every I_1 and for every [dim]. *)
Theorem X1_W_1_derivative_chain :
  forall (m : Material) (dim : nat) (I_1 : R),
    match params m with
    | HOParams _ _ b _ => b <> 0
    | NHParams _ => True
    end ->
    derivable_pt_lim (W_1_fun m 0 dim) I_1 (W_1_fun m 1 dim I_1)
    /\ derivable_pt_lim (W_1_fun m 1 dim) I_1 (W_1_fun m 2 dim I_1).
Proof.
  intros m dim x Hb. unfold W_1_fun, W_1.
  destruct (params m) as [a a_f b b_f | mu]; cbn [Z.eqb Pos.eqb].
  - split.
    + apply (derivable_pt_lim_ext
               (fun y => a / (2 * b) * (exp (b * (y - 3)) - 1))
               _ x); [intros z; reflexivity|].
      replace (a / 2 * exp (b * (x - 3)))
        with (a / (2 * b) * (b * exp (b * (x - 3)) - 0)) by (field; exact Hb).
      apply scaled_derivable.
      apply (derivable_pt_lim_minus (fun y => exp (b * (y - 3))) (fct_cte 1)).
      * apply exp_affine_derivable.
      * apply derivable_pt_lim_const.
    + replace (a * b / 2 * exp (b * (x - 3)))
        with (a / 2 * (b * exp (b * (x - 3)))) by field.
      apply scaled_derivable. apply exp_affine_derivable.
  - split.
    + apply (derivable_pt_lim_ext
               (fun y => 5 / 10 * mu * (minus_fct id (fct_cte (INR dim)) y)));
        [intros z; reflexivity|].
      assert (H : derivable_pt_lim (minus_fct id (fct_cte (INR dim))) x (1 - 0)).
      { apply derivable_pt_lim_minus;
          [apply derivable_pt_lim_id | apply derivable_pt_lim_const]. }
      apply (scaled_derivable (5 / 10 * mu)) in H.
      replace (5 / 10 * mu * (1 - 0)) with (5 / 10 * mu) in H by ring.
      exact H.
    + apply (derivable_pt_lim_const (5 / 10 * mu)).
Qed.

Lemma X1_W_1_derivative_chain_witness :
  derivable_pt_lim (W_1_fun Samples.stress_material 0 3) 3
                   (W_1_fun Samples.stress_material 1 3 3).
Proof.
  destruct (X1_W_1_derivative_chain Samples.stress_material 3 3) as [H _].
  - simpl. lra.
  - exact H.
Defined.

End EnergyProps.

Section PassiveEnergy.
Import Ufl Material Energy.

Lemma invariants_without_activation (m : Material) (F : Tensor) :
  In (_active_model m) active_models ->
  (if String.eqb (_active_model m) "active_stress"
   then Ok (I1 m F, I4f m F)
   else do i1 <- I1e m F 0;
        do i4f <- I4fe m F 0;
        Ok (i1, i4f))
  = Ok (I1 m F, I4f m F).
Proof.
  intros Htag. unfold I1e, I4fe, mgamma_of.
  destruct Htag as [<- | [<- | [<- | []]]]; simpl; try reflexivity.
  - replace (1 - 0) with 1 by ring. rewrite powerRZ_R1. f_equal. f_equal; field.
  - replace (1 + 0) with 1 by ring. rewrite powerRZ_R1. f_equal. f_equal; field.
Qed.

(** X2: without activation ([gamma = 0]) the strain energy does not depend
    on the active model: under each of the three tags, and in every
    geometric dimension, [strain_energy(F)] is the passive energy
    W_1(I1) + W_4(I4f) of the raw invariants. *)
Theorem X2_strain_energy_without_activation :
  forall (m : Material) (F : Tensor),
    gamma m = 0 ->
    In (_active_model m) active_models ->
    exists W1 W4f,
      W_1 m (I1 m F) 0 (geometric_dimension F) = Some W1
      /\ W_4 m (I4f m F) 0 = Some W4f
      /\ strain_energy m F = Ok (W1 + W4f).
Proof.
  intros m F Hg Htag. unfold strain_energy. rewrite Hg.
  rewrite (invariants_without_activation m F Htag). cbn [bind].
  assert (Hact : Wactive m 0 (I4f m F) 0 = Some 0).
  { unfold Wactive. destruct (String.eqb (_active_model m) "active_stress");
      cbn [Z.eqb]; f_equal; ring. }
  rewrite Hact.
  assert (H1 : exists W1, W_1 m (I1 m F) 0 (geometric_dimension F) = Some W1).
  { unfold W_1. destruct (params m); cbn [Z.eqb]; eexists; reflexivity. }
  assert (H4 : exists W4f, W_4 m (I4f m F) 0 = Some W4f).
  { unfold W_4, HO_W_4. destruct (params m); [|eexists; reflexivity].
    destruct (Req_dec_T (I4f m F) 0); cbn [Z.eqb]; eexists; reflexivity. }
  destruct H1 as [W1 H1]. destruct H4 as [W4f H4].
  exists W1, W4f. rewrite H1, H4. repeat split. f_equal. ring.
Qed.

Lemma X2_strain_energy_without_activation_witness :
  exists W1 W4f,
    strain_energy Samples.strain_material Samples.F_id = Ok (W1 + W4f).
Proof.
  destruct (X2_strain_energy_without_activation Samples.strain_material Samples.F_id)
    as [W1 [W4f [_ [_ H]]]].
  - reflexivity.
  - simpl. tauto.
  - exists W1, W4f. exact H.
Defined.

End PassiveEnergy.

(** ** The Guccione law *)

Section GuccioneProps.
Import Ufl Guccione.

(** X3: an isotropic Guccione material (bt = bf = bfs = 1.0) with an active
    tension set cannot evaluate its strain energy: the active term reads the
    local [e1], which only the anisotropic branch assigns, so the call raises
    [UnboundLocalError] for every deformation gradient. *)
Theorem X3_guccione_isotropic_active_unbound :
  forall (self : Guccione) (F : mat),
    is_isotropic self = true ->
    Tactive (_parameters self) <> None ->
    strain_energy self F = Raise (UnboundLocalError "e1").
Proof.
  intros self F Hiso Hact. unfold strain_energy. rewrite Hiso. cbn [bind].
  destruct (Tactive (_parameters self)) as [t|]; [reflexivity | contradiction].
Qed.

Lemma X3_guccione_isotropic_active_unbound_witness :
  strain_energy
    (Guccione.__init__
       (mkKeywords None (Some 1) (Some 1) (Some 1) None None None None
                   (Some (Some 5))))
    Identity
  = Raise (UnboundLocalError "e1").
Proof.
  apply X3_guccione_isotropic_active_unbound.
  - unfold is_isotropic. simpl.
    destruct (Req_dec_T 1 1) as [_ | H]; [reflexivity | contradiction H; reflexivity].
  - simpl. discriminate.
Defined.

Lemma rest_volume_factor : Rpower (det3 Identity) (- (2 / 3)) = 1.
Proof.
  replace (det3 Identity) with 1
    by (cbv -[Rplus Rmult Rminus Ropp Rinv Rdiv IZR]; ring).
  unfold Rpower. rewrite ln_1. replace (- (2 / 3) * 0) with 0 by ring.
  apply exp_0.
Qed.

(** X4: the Guccione strain energy vanishes in the reference configuration
    [F = Identity(3)]: for an isotropic material without active tension, and
    for an anisotropic material with a frame (e1, e2, e3), where with an
    active tension the fibre vector e1 has unit length. *)
Theorem X4_guccione_energy_at_rest :
  forall (kw : Keywords),
    let self := Guccione.__init__ kw in
    let p := _parameters self in
    (is_isotropic self = true -> Tactive p = None ->
       strain_energy self Identity = Ok 0)
    /\ (is_isotropic self = false ->
        forall v1 v2 v3,
          e1 p = Some v1 -> e2 p = Some v2 -> e3 p = Some v3 ->
          (Tactive p <> None -> dot 3 v1 v1 = 1) ->
          strain_energy self Identity = Ok 0).
Proof.
  intros kw self p. split.
  - intros Hiso Hact. unfold strain_energy. fold p. rewrite Hiso, Hact.
    cbn [bind]. rewrite rest_volume_factor. f_equal.
    cbv -[Rplus Rmult Rminus Ropp Rinv Rdiv IZR exp C _parameters self p].
    match goal with |- context [exp ?q] => replace q with 0 by lra end.
    rewrite exp_0. field.
  - intros Haniso v1 v2 v3 H1 H2 H3 Hunit.
    unfold strain_energy. fold p. rewrite Haniso, H1, H2, H3.
    cbn [bind as_vector read_local]. rewrite rest_volume_factor.
    assert (Hg : gamma self = Tactive p) by reflexivity.
    rewrite Hg.
    destruct (Tactive p) as [t|] eqn:Ht.
    + cbn [bind as_vector]. f_equal.
      assert (Hu : dot 3 v1 v1 = 1) by (apply Hunit; discriminate).
      cbv -[Rplus Rmult Rminus Ropp Rinv Rdiv IZR] in Hu.
      cbv -[Rplus Rmult Rminus Ropp Rinv Rdiv IZR exp C bf bt bfs _parameters self p].
      match goal with |- context [exp ?q] => replace q with 0 by field end.
      rewrite exp_0.
      match goal with |- _ + t / 2 * (?i4 - 1) = 0 =>
        let H := fresh "H" in
        assert (H : i4 = 1)
          by (match type of Hu with ?l = _ => transitivity l; [field | exact Hu] end);
        rewrite H end.
      field.
    + cbn [bind]. f_equal.
      cbv -[Rplus Rmult Rminus Ropp Rinv Rdiv IZR exp C bf bt bfs _parameters self p].
      match goal with |- context [exp ?q] => replace q with 0 by field end.
      rewrite exp_0. field.
Qed.

Lemma X4_guccione_energy_at_rest_witness :
  strain_energy
    (Guccione.__init__
       (mkKeywords None None None None
          (Some (Some Samples.e1))
          (Some (Some (fun i => if Nat.eqb i 1 then 1 else 0)))
          (Some (Some (fun i => if Nat.eqb i 2 then 1 else 0)))
          None (Some (Some 5))))
    Identity
  = Ok 0.
Proof.
  eapply (X4_guccione_energy_at_rest
            (mkKeywords None None None None
               (Some (Some Samples.e1))
               (Some (Some (fun i => if Nat.eqb i 1 then 1 else 0)))
               (Some (Some (fun i => if Nat.eqb i 2 then 1 else 0)))
               None (Some (Some 5)))).
  - unfold is_isotropic. simpl.
    destruct (Req_dec_T 2 1) as [H | _]; [lra | reflexivity].
  - reflexivity.
  - reflexivity.
  - reflexivity.
  - intros _. cbv -[Rplus Rmult Rminus Ropp Rinv Rdiv IZR]. ring.
Defined.

End GuccioneProps.

(** ** Python indexing *)

Section PyIndexProps.
Context {A : Type}.

Lemma index_in_range (l : list A) (i : nat) (d : A) :
  (i < length l)%nat -> Py.index l (Z.of_nat i) = Ok (nth i l d).
Proof.
  intros Hi. unfold Py.index.
  replace ((0 <=? Z.of_nat i)%Z && (Z.of_nat i <? Z.of_nat (length l))%Z)
    with true by (symmetry; apply andb_true_intro; split;
                  [apply Z.leb_le | apply Z.ltb_lt]; lia).
  rewrite Nat2Z.id.
  destruct (nth_error l i) as [x|] eqn:E.
  - f_equal. symmetry. apply nth_error_nth. exact E.
  - apply nth_error_None in E. lia.
Qed.

Lemma index_past_end (l : list A) (i : Z) :
  (Z.of_nat (length l) <= i)%Z -> Py.index l i = Raise IndexError.
Proof.
  intros Hi. unfold Py.index.
  replace (i <? Z.of_nat (length l))%Z with false
    by (symmetry; apply Z.ltb_ge; lia).
  replace (i <? 0)%Z with false by (symmetry; apply Z.ltb_ge; lia).
  rewrite !andb_false_r. reflexivity.
Qed.

End PyIndexProps.

(** ** Life cycle of a volume target *)

Section TargetLogProps.
Import Fem VolumeTarget TargetLog.
Context {Point : Type}.

Lemma load_from (td : list R) (n a : nat) (self : Logged Point) :
  (a + n <= length td)%nat ->
  exists self',
    calls self (List.map (fun k => LoadTargetData td (Z.of_nat k)) (seq a n)) = Ok self'
    /\ data self' = (data self ++ firstn n (skipn a td))%list
    /\ target self' = target self
    /\ res_func_value self' = res_func_value self.
Proof.
  revert a self. induction n as [|n IH]; intros a self Hlen.
  - exists self. simpl. rewrite app_nil_r. repeat split; reflexivity.
  - cbn [seq List.map calls call]. unfold load_target_data.
    rewrite (index_in_range td a 0) by lia. cbn [bind].
    destruct (IH (S a)
                 (mkLogged (target self) (data self ++ [nth a td 0])%list
                           (res_func_value self) (res_target self)
                           (res_simulated self)))
      as [self' [Hc [Hd [Ht Hr]]]]; [lia|].
    exists self'. split; [exact Hc|]. cbn [data target res_func_value] in *.
    split; [|split; assumption].
    rewrite Hd, <- app_assoc. f_equal.
    assert (Hsk : skipn a td = nth a td 0 :: skipn (S a) td).
    { clear -Hlen. revert a Hlen. induction td as [|x td IHtd]; intros a Hlen.
      - simpl in Hlen. lia.
      - destruct a as [|a]; [reflexivity|]. simpl. apply IHtd. simpl in Hlen. lia. }
    rewrite Hsk. reflexivity.
Qed.

(** X5: loading then selecting is a round trip.  After the time points
    0..N-1 of a series have been loaded into a target without data,
    [next_target(it)] makes the it-th value of the series the current target
    for every it < N, and raises [IndexError] for it = N (nothing loaded
    there). *)
Theorem X5_load_then_next_target :
  forall (self : Logged Point) (target_data : list R) (N : nat),
    data self = [] ->
    (N <= length target_data)%nat ->
    exists self',
      load_series self target_data N = Ok self'
      /\ (forall it, (it < N)%nat ->
            exists self'',
              next_target self' (Z.of_nat it) = Ok self''
              /\ target_fun (target self'') = nth it target_data 0)
      /\ next_target self' (Z.of_nat N) = Raise IndexError.
Proof.
  intros self td N Hempty HN.
  destruct (load_from td N 0 self) as [self' [Hc [Hd _]]]; [lia|].
  exists self'. split; [exact Hc|].
  rewrite Hempty in Hd. cbn [skipn app] in Hd.
  assert (Hlen : length (data self') = N).
  { rewrite Hd, List.length_firstn. apply Nat.min_l. exact HN. }
  split.
  - intros it Hit. unfold next_target.
    rewrite (index_in_range (data self') it 0) by lia. cbn [bind].
    eexists. split; [reflexivity|]. cbn [target assign_target target_fun].
    rewrite Hd, List.nth_firstn.
    destruct (Nat.ltb_spec it N) as [_ | Hge]; [reflexivity | lia].
  - unfold next_target. rewrite index_past_end by lia. reflexivity.
Qed.

End TargetLogProps.

Lemma X5_load_then_next_target_witness :
  exists self',
    TargetLog.load_series
      (TargetLog.mkLogged (Samples.cube_target 1 0) [] [] [] [])
      [120; 110; 100] 3 = Ok self'
    /\ TargetLog.next_target self' 3 = Raise IndexError.
Proof.
  destruct (X5_load_then_next_target
              (TargetLog.mkLogged (Samples.cube_target 1 0) [] [] [] [])
              [120; 110; 100] 3 eq_refl)
    as [self' [Hload [_ Hpast]]].
  - simpl. lia.
  - exists self'. split; [exact Hload | exact Hpast].
Defined.

Section TargetResultsProps.
Import Fem VolumeTarget TargetLog.
Context {Point : Type}.

Lemma call_results (self self' : Logged Point) (c : Call Point) :
  call self c = Ok self' ->
  exists k,
    k = (match c with Save => 1 | _ => 0 end)%nat
    /\ length (res_func_value self') = (length (res_func_value self) + k)%nat
    /\ length (res_target self') = (length (res_target self) + k)%nat
    /\ length (res_simulated self') = (length (res_simulated self) + k)%nat.
Proof.
  intros Hc. destruct c as [td n | it | u | |]; cbn [call] in Hc.
  - unfold load_target_data in Hc. destruct (Py.index td n); [|discriminate].
    injection Hc as <-. exists 0%nat. cbn. repeat split; lia.
  - unfold next_target in Hc. destruct (Py.index (data self) it); [|discriminate].
    injection Hc as <-. exists 0%nat. cbn. repeat split; lia.
  - injection Hc as <-. exists 0%nat. cbn. repeat split; lia.
  - injection Hc as <-. exists 0%nat. cbn. repeat split; lia.
  - injection Hc as <-. exists 1%nat. unfold save. cbn.
    rewrite !List.length_app. cbn. repeat split; lia.
Qed.

(** X6: the results log stays aligned.  Over any sequence of calls
    (loading data, selecting a target, assigning the simulated value or the
    functional, saving) that does not raise, each of the lists
    results["func_value"], results["target"] and results["simulated"] grows
    by exactly the number of [save()] calls, so lists that start with equal
    lengths (empty, after construction) always have equal lengths. *)
Theorem X6_results_log_aligned :
  forall (cs : list (Call Point)) (self self' : Logged Point),
    calls self cs = Ok self' ->
    length (res_func_value self') = (length (res_func_value self) + count_saves cs)%nat
    /\ length (res_target self') = (length (res_target self) + count_saves cs)%nat
    /\ length (res_simulated self') = (length (res_simulated self) + count_saves cs)%nat.
Proof.
  induction cs as [|c cs IH]; intros self self' Hrun.
  - cbn in Hrun. injection Hrun as <-. unfold count_saves. cbn. repeat split; lia.
  - cbn [calls] in Hrun. destruct (call self c) as [mid|e] eqn:Hc; [|discriminate].
    cbn [bind] in Hrun.
    destruct (call_results self mid c Hc) as [k [Hk [H1 [H2 H3]]]].
    destruct (IH mid self' Hrun) as [G1 [G2 G3]].
    assert (Hcount : count_saves (c :: cs) = (k + count_saves cs)%nat).
    { unfold count_saves. cbn [List.filter]. subst k.
      destruct c; reflexivity. }
    rewrite Hcount. repeat split; lia.
Qed.

(** X7: the integral form that [get_functional()] returns assembles to
    [get_value()] whenever the mesh volume is not zero (the division by the
    mesh volume in the form is undone by the integration). *)
Theorem X7_get_functional_assembles_to_value :
  forall (self : VolumeTarget Point),
    meshvol self <> 0 ->
    assemble (get_functional self) = get_value self.
Proof.
  intros self Hvol. unfold get_functional, assemble, get_value.
  cbn [measure integrand]. rewrite integral_const.
  unfold meshvol, assemble in *. cbn [measure integrand] in *.
  field. exact Hvol.
Qed.

End TargetResultsProps.

Lemma X6_results_log_aligned_witness :
  length (TargetLog.res_func_value
            (TargetLog.save
               (TargetLog.mkLogged (Samples.cube_target 1 0) [] [] [] [])))
  = 1%nat.
Proof.
  destruct (X6_results_log_aligned
              [TargetLog.Save]
              (TargetLog.mkLogged (Samples.cube_target 1 0) [] [] [] [])
              (TargetLog.save
                 (TargetLog.mkLogged (Samples.cube_target 1 0) [] [] [] []))
              eq_refl)
    as [H _].
  exact H.
Defined.

Lemma X7_get_functional_assembles_to_value_witness :
  Fem.assemble (TargetLog.get_functional (Samples.cube_target 100 110))
  = VolumeTarget.get_value (Samples.cube_target 100 110).
Proof.
  apply X7_get_functional_assembles_to_value.
  unfold TargetLog.meshvol, Fem.assemble. cbn. lra.
Defined.

(** ** What the regional strain functional sees *)

Section RegionalFunctionalProps.
Import Fem RegionalStrainTarget.
Context {Point : Type}.

Lemma get_value_zero_forms (t : RegionalStrainTarget Point) :
  (forall i, (i < 17)%nat -> _form t i = 0) ->
  get_value (assign_functional t) = 0.
Proof.
  intros Hforms.
  assert (Hall : forall v, In v (functional (assign_functional t)) -> v = 0).
  { intros v Hin. unfold assign_functional in Hin. cbn [functional] in Hin.
    apply List.in_map_iff in Hin. destruct Hin as [j [<- Hj]].
    unfold range in Hj. apply List.in_seq in Hj.
    unfold solve_R0.
    rewrite (integral_ext Point (dmu t (j + 1)) _ (fun _ => 0)).
    - rewrite integral_zero. unfold Rdiv. ring.
    - intros _. rewrite Hforms by lia. ring. }
  unfold get_value. apply py_sum_zeros.
  apply List.Forall_forall. intros x Hx.
  apply List.in_map_iff in Hx. destruct Hx as [i [<- _]].
  destruct (List.nth_in_or_default i (functional (assign_functional t)) 0)
    as [Hin | Hdef]; [apply Hall; exact Hin | exact Hdef].
Qed.

Lemma unweighted_form_vanishes (t : RegionalStrainTarget Point) (i : nat) :
  nth i (weights t) [] = np_zeros 9 -> _form t i = 0.
Proof.
  intros Hw. unfold _form. rewrite Hw.
  unfold tensor_dot, inner_self, np_zeros. simpl. ring.
Qed.

Lemma weights_after_set_target_functions
    (mesh_dx : Measure Point) (mesh_dmu : nat -> Measure Point)
    (w : list (list R)) :
  length w = 17%nat ->
  Forall (fun row => length row = 3%nat) w ->
  exists t,
    set_target_functions (RegionalStrainTarget.__init__ mesh_dx mesh_dmu w) = Ok t
    /\ weights t = (repeat (np_zeros 9) 16 ++ [diag9 (nth 16 w [])])%list
    /\ length (target_fun t) = 17%nat
    /\ length (simulated_fun t) = 17%nat.
Proof.
  intros Hlen Hrows.
  do 16 (destruct w as [|? w]; [discriminate Hlen|]).
  destruct w as [|r16 w]; [discriminate Hlen|].
  destruct w; [|discriminate Hlen].
  assert (H16 : length r16 = 3%nat).
  { rewrite List.Forall_forall in Hrows. apply Hrows. simpl. tauto. }
  destruct r16 as [|a [|b [|c [|? ?]]]]; try discriminate H16.
  eexists. split; [reflexivity|]. repeat split; reflexivity.
Qed.

(** X8: after [set_target_functions] on a 17-by-3 weight array, the value
    of the regional strain functional depends on segment 17 alone: whatever
    target and simulated strains are assigned, if they agree on segment 17
    then [get_value()] after [assign_functional()] is 0, however large the
    misfit in segments 1..16. *)
Theorem X8_regional_value_sees_last_segment_only :
  forall (mesh_dx : Measure Point) (mesh_dmu : nat -> Measure Point)
         (w tgt sim : list (list R)),
    length w = 17%nat ->
    Forall (fun row => length row = 3%nat) w ->
    exists t,
      set_target_functions (RegionalStrainTarget.__init__ mesh_dx mesh_dmu w) = Ok t
      /\ let t' := set_simulated (assign_target t tgt) sim in
         (nth 16 (simulated_fun t') [] = nth 16 (target_fun t') [] ->
          get_value (assign_functional t') = 0).
Proof.
  intros mesh_dx mesh_dmu w tgt sim Hlen Hrows.
  destruct (weights_after_set_target_functions mesh_dx mesh_dmu w Hlen Hrows)
    as [t [Hset [Hw _]]].
  exists t. split; [exact Hset|]. intros t' Hlast.
  apply get_value_zero_forms. intros i Hi.
  destruct (Nat.eq_dec i 16%nat) as [-> | Hne].
  - apply form_zero_misfit. exact Hlast.
  - apply unweighted_form_vanishes.
    unfold t', set_simulated, assign_target. cbn [weights]. rewrite Hw.
    rewrite app_nth1 by (rewrite repeat_length; lia).
    apply nth_repeat_lt. lia.
Qed.

End RegionalFunctionalProps.

Lemma X8_regional_value_sees_last_segment_only_witness :
  exists t,
    RegionalStrainTarget.set_target_functions
      (RegionalStrainTarget.__init__ Samples.cube_dx (fun _ => Samples.cube_dx)
         Samples.ones_17_3) = Ok t
    /\ RegionalStrainTarget.get_value
         (RegionalStrainTarget.assign_functional
            (RegionalStrainTarget.set_simulated
               (RegionalStrainTarget.assign_target t (repeat [0; 0; 0] 17))
               (repeat [1; 1; 1] 16 ++ [[0; 0; 0]])))
       = 0.
Proof.
  destruct (X8_regional_value_sees_last_segment_only
              Samples.cube_dx (fun _ => Samples.cube_dx) Samples.ones_17_3
              (repeat [0; 0; 0] 17) (repeat [1; 1; 1] 16 ++ [[0; 0; 0]]))
    as [t [Hset Hval]].
  - reflexivity.
  - unfold Samples.ones_17_3. simpl. repeat constructor.
  - exists t. split; [exact Hset|]. apply Hval.
    unfold Samples.ones_17_3 in Hset. cbv in Hset. injection Hset as <-.
    reflexivity.
Defined.

(** ** The regularization functional *)

Section RegularizationOpsProps.
Import Fem Regularization RegularizationOps.
Context {Point : Type}.

Lemma Regularization__init__attrs (mesh_dx : Measure Point) (space : string) (lmbda : R) :
  In space spaces ->
  exists self,
    Regularization.__init__ mesh_dx space lmbda = Ok self
    /\ self !! "space" = Some (VStr space)
    /\ self !! "lmbda" = Some (VFloat lmbda)
    /\ self !! "_value" = Some (VFloat 0)
    /\ self !! "meshvol" = Some (VFloat (integral mesh_dx (fun _ => 1)))
    /\ self !! "dx" = Some (VMeasure mesh_dx)
    /\ self !! "mesh_vol" = None.
Proof.
  intros Hin. unfold Regularization.__init__.
  apply str_in_In in Hin. rewrite Hin.
  eexists. split; [reflexivity|].
  unfold setattr, assemble. simpl.
  repeat split; simplify_map_eq; reflexivity.
Qed.

(** X9: the regularization term and its value agree.  A freshly
    constructed object has value 0.  For the spaces "CG_1" and "R_0",
    [get_functional(m)] returns a form that assembles to
    [lmbda * get_value()], where [get_value()] is read after the call; for
    "regional" it raises [AttributeError] (nothing is returned and no value
    is stored). *)
Theorem X9_regularization_functional_and_value :
  forall (mesh_dx : Measure Point) (lmbda : R) (m : Function Point) (space : string),
    In space spaces ->
    exists self,
      Regularization.__init__ mesh_dx space lmbda = Ok self
      /\ get_value self = Ok 0
      /\ (space <> "regional" ->
          exists self' form v,
            get_functional self m = Ok (self', form)
            /\ get_value self' = Ok v
            /\ assemble form = lmbda * v)
      /\ (space = "regional" ->
          get_functional self m = Raise (AttributeError "mesh_vol")).
Proof.
  intros mesh_dx lmbda m space Hin.
  destruct (Regularization__init__attrs mesh_dx space lmbda Hin)
    as [self [Hinit [Hs [Hl [Hv [Hmv [Hdx Hnone]]]]]]].
  exists self. split; [exact Hinit|].
  split. { unfold get_value, getattr. rewrite Hv. reflexivity. }
  assert (Hform : forall form,
             get_form self m = Ok form ->
             exists self' v,
               get_functional self m = Ok (self', scale_form lmbda form)
               /\ get_value self' = Ok v
               /\ assemble (scale_form lmbda form) = lmbda * v).
  { intros form Hf. unfold get_functional. rewrite Hf. cbn [bind].
    unfold getattr, setattr, Object in *. cbv zeta.
    rewrite lookup_insert_ne by discriminate.
    rewrite Hl. cbn [bind as_float].
    eexists. eexists. split; [reflexivity|].
    unfold get_value, getattr, Object. cbv beta.
    rewrite lookup_insert_eq. cbn [bind as_float].
    split; [reflexivity|].
    unfold assemble, scale_form. cbn [measure integrand].
    apply integral_scal. }
  split.
  - intros Hnr.
    assert (Hf : exists form, get_form self m = Ok form).
    { unfold get_form, getattr. rewrite Hs. cbn [bind as_str].
      destruct Hin as [<- | [<- | [<- | []]]].
      - simpl. rewrite Hmv, Hdx. simpl. eexists. reflexivity.
      - contradiction Hnr. reflexivity.
      - simpl. rewrite Hdx. simpl. eexists. reflexivity. }
    destruct Hf as [form Hf].
    destruct (Hform form Hf) as [self' [v [H1 [H2 H3]]]].
    exists self', (scale_form lmbda form), v. repeat split; assumption.
  - intros ->. unfold get_functional, get_form, getattr. rewrite Hs.
    simpl. rewrite Hnone. reflexivity.
Qed.

End RegularizationOpsProps.

Lemma X9_regularization_functional_and_value_witness :
  exists self,
    Regularization.__init__ Samples.cube_dx "regional" 1 = Ok self
    /\ RegularizationOps.get_functional self
         (Regularization.mkFunction (fun _ => repeat 1 17) (fun _ => []) (repeat 1 17))
       = Raise (AttributeError "mesh_vol").
Proof.
  destruct (X9_regularization_functional_and_value Samples.cube_dx 1
              (Regularization.mkFunction (fun _ => repeat 1 17) (fun _ => [])
                                         (repeat 1 17))
              "regional")
    as [self [Hinit [_ [_ Hreg]]]].
  - simpl. tauto.
  - exists self. split; [exact Hinit | apply Hreg; reflexivity].
Defined.

(** ** Reset and derivative of the reduced functional *)

Section ReducedFunctionalOpsProps.
Import ReducedFunctional ReducedFunctionalOps.

(** X10: [reset()] after an evaluation that returned discards what the
    evaluation logged in [func_values_lst] and [controls_lst], and nothing
    else of it: the iteration counter, the crash counter and
    [forward_times] keep the evaluation.  It also drops the last entry of
    both gradient-norm lists, which the evaluation did not write, sets the
    logger back to the instance's level and leaves annotation off. *)
Theorem X10_reset_after_evaluation :
  forall (for_run : ForRun) (for_time : float) (self : Object) (value : Value)
         (return_fail : bool) (w w1 : World) (res : ForRes) (crash : bool),
    for_run (paramvec_new_of value) true (world_at_forward (base self) w)
      = (w1, Ok (res, crash)) ->
    first_call (base self) = true \/ ini_for_res (base self) <> None ->
    let evaluated := call for_run for_time self value return_fail w in
    let after := reset (snd (fst evaluated)) (fst (fst evaluated)) in
    let b := base (snd after) in
    func_values_lst b = func_values_lst (base self)
    /\ controls_lst b = controls_lst (base self)
    /\ iter b = (iter (base self) + 1)%Z
    /\ nr_crashes b
       = (if crash then nr_crashes (base self) + 1 else nr_crashes (base self))%Z
    /\ forward_times b = (forward_times (base self) ++ [for_time])%list
    /\ grad_norm (snd after) = removelast (grad_norm self)
    /\ grad_norm_scaled b = removelast (grad_norm_scaled (base self))
    /\ logger_level (fst after) = log_level (base self)
    /\ stop_annotating (fst after) = true.
Proof.
  intros for_run for_time self value return_fail w w1 res crash Hrun Hini.
  unfold call, __call__. rewrite Hrun.
  assert (Hsome : exists r0,
             (if first_call (base self) then Some res else ini_for_res (base self))
             = Some r0).
  { destruct Hini as [-> | Hne]; [eexists; reflexivity|].
    destruct (first_call (base self)); [eexists; reflexivity|].
    destruct (ini_for_res (base self)); [eexists; reflexivity | contradiction]. }
  destruct Hsome as [r0 Hr0].
  destruct crash; cbn -[PrimFloat.mul]; unfold reset; cbn -[PrimFloat.mul];
    rewrite Hr0; cbn -[PrimFloat.mul]; unfold pop_if_any;
    rewrite !removelast_last; repeat split; reflexivity.
Qed.

Lemma X10_reset_after_evaluation_witness :
  func_values_lst
    (base (snd (reset
                  (snd (fst (call Samples.good_run 1%float
                               (mkObject Samples.fresh_self None 0 [] [] 1%float)
                               (VNumber 3%float) false Samples.idle_world)))
                  (fst (fst (call Samples.good_run 1%float
                               (mkObject Samples.fresh_self None 0 [] [] 1%float)
                               (VNumber 3%float) false Samples.idle_world))))))
  = [].
Proof.
  apply (X10_reset_after_evaluation Samples.good_run 1%float
           (mkObject Samples.fresh_self None 0 [] [] 1%float)
           (VNumber 3%float) false Samples.idle_world
           (world_at_forward Samples.fresh_self Samples.idle_world)
           (mkForRes 0 2.5%float) false eq_refl).
  left. reflexivity.
Defined.

(** X11: [derivative()] raises exactly when a component of the adjoint
    gradient is NaN.  It then returns no gradient and leaves both
    gradient-norm lists untouched, although [nr_der_calls] and
    [backward_times] have already advanced.  Otherwise it returns the
    gradient scaled component by component by [scale] and
    [derivative_scale], of the same length, and appends one entry to each
    gradient-norm list. *)
Theorem X11_derivative_nan_guard :
  forall (norm : list float -> float) (out : list float) (back_time : float)
         (self : Object),
    let r := derivative norm out back_time self in
    nr_der_calls (fst r) = (nr_der_calls self + 1)%Z
    /\ backward_times (fst r) = (backward_times self ++ [back_time])%list
    /\ (existsb PrimFloat.is_nan out = true ->
        snd r = RaisedException "NaN in adjoint gradient calculation."
        /\ grad_norm (fst r) = grad_norm self
        /\ grad_norm_scaled (base (fst r)) = grad_norm_scaled (base self))
    /\ (existsb PrimFloat.is_nan out = false ->
        exists g,
          snd r = Returned g
          /\ length g = length out
          /\ (forall i x, nth_error out i = Some x ->
                nth_error g i
                = Some (PrimFloat.mul (PrimFloat.mul (scale (base self)) x)
                                      (derivative_scale self)))
          /\ length (grad_norm (fst r)) = S (length (grad_norm self))
          /\ length (grad_norm_scaled (base (fst r)))
             = S (length (grad_norm_scaled (base self)))).
Proof.
  intros norm out back_time self r. subst r. unfold derivative.
  destruct (existsb PrimFloat.is_nan out) eqn:Hnan; cbn -[PrimFloat.mul].
  - split; [reflexivity|]. split; [reflexivity|]. split.
    + intros _. repeat split; reflexivity.
    + intros H. discriminate H.
  - split; [reflexivity|]. split; [reflexivity|]. split.
    + intros H. discriminate H.
    + intros _. eexists. split; [reflexivity|].
      split; [apply List.length_map|].
      split.
      * intros i x Hx. rewrite List.nth_error_map, Hx. reflexivity.
      * rewrite !List.length_app. cbn. split; lia.
Qed.

Lemma X11_derivative_nan_guard_witness :
  snd (derivative (fun _ => 0%float) [1%float; nan] 1%float
         (mkObject Samples.fresh_self None 0 [] [] 1%float))
  = RaisedException "NaN in adjoint gradient calculation.".
Proof.
  destruct (X11_derivative_nan_guard (fun _ => 0%float) [1%float; nan] 1%float
              (mkObject Samples.fresh_self None 0 [] [] 1%float))
    as [_ [_ [Hnan _]]].
  destruct (Hnan eq_refl) as [H _]. exact H.
Defined.

End ReducedFunctionalOpsProps.

(** ** Regional parameters *)

Section RegionalParameterProps.
Import RegionalParameter.

Lemma indicator_at (arr : list Z) (cell : nat) (m v : Z) :
  nth_error arr cell = Some m ->
  nth cell (_make_indicator_function arr v) 0 = if (m =? v)%Z then 1 else 0.
Proof.
  unfold _make_indicator_function. revert cell.
  induction arr as [|x arr IH]; intros cell Hc.
  - destruct cell; discriminate Hc.
  - destruct cell as [|cell]; cbn [nth_error List.map nth] in *.
    + injection Hc as ->. reflexivity.
    + apply IH. exact Hc.
Qed.

Lemma regional_sum_absent (arr : list Z) (cell : nat) (m : Z)
    (vs : list Z) (cs : list R) (init : R) :
  nth_error arr cell = Some m ->
  ~ In m vs ->
  fold_left (fun fun_ cf => fun_ + fst cf * nth cell (snd cf) 0)
            (combine cs (List.map (_make_indicator_function arr) vs)) init
  = init.
Proof.
  intros Hc. revert cs init. induction vs as [|v vs IH]; intros cs init Hnin.
  - destruct cs; reflexivity.
  - destruct cs as [|c cs]; [reflexivity|]. cbn [List.map combine fold_left fst snd].
    rewrite IH by (intros H; apply Hnin; right; exact H).
    rewrite (indicator_at arr cell m v Hc).
    destruct (Z.eqb_spec m v) as [-> | _]; [|ring].
    exfalso. apply Hnin. left. reflexivity.
Qed.

Lemma regional_sum_present (arr : list Z) (cell : nat) (m : Z)
    (vs : list Z) (cs : list R) (init : R) (k : nat) :
  nth_error arr cell = Some m ->
  List.NoDup vs ->
  length cs = length vs ->
  nth_error vs k = Some m ->
  fold_left (fun fun_ cf => fun_ + fst cf * nth cell (snd cf) 0)
            (combine cs (List.map (_make_indicator_function arr) vs)) init
  = init + nth k cs 0.
Proof.
  intros Hc. revert cs init k. induction vs as [|v vs IH]; intros cs init k Hnd Hlen Hk.
  - destruct k; discriminate Hk.
  - destruct cs as [|c cs]; [discriminate Hlen|].
    cbn [List.map combine fold_left fst snd].
    rewrite (indicator_at arr cell m v Hc).
    apply List.NoDup_cons_iff in Hnd. destruct Hnd as [Hnin Hnd].
    destruct k as [|k].
    + injection Hk as ->. rewrite Z.eqb_refl.
      rewrite (regional_sum_absent arr cell m vs cs _ Hc Hnin). simpl. ring.
    + cbn [nth_error] in Hk.
      destruct (Z.eqb_spec m v) as [-> | _].
      * exfalso. apply Hnin. eapply nth_error_In. exact Hk.
      * rewrite (IH cs _ k Hnd) by (try assumption; simpl in Hlen; lia).
        simpl. ring.
Qed.

(** X12: a regional parameter evaluates to the coefficient of the cell's
    region.  Whatever order Python uses to iterate over the set of markers
    (each marker once), on a cell whose marker is the k-th value of that
    order [get_function()] has the value of the k-th degree of freedom; the
    indicator functions select exactly one coefficient per cell.  For a
    mesh function without cells [get_function()] raises [IndexError]. *)
Theorem X12_regional_parameter_value :
  forall (set_iter : list Z -> list Z) (arr : list Z) (coeffs : list R),
    List.NoDup (set_iter arr) ->
    (forall v, In v (set_iter arr) <-> In v arr) ->
    length coeffs = length (set_iter arr) ->
    let self := with_vector (RegionalParameter.__init__ set_iter arr) coeffs in
    (arr = [] -> get_function self = Raise IndexError)
    /\ (forall cell m k,
          nth_error arr cell = Some m ->
          nth_error (set_iter arr) k = Some m ->
          exists f, get_function self = Ok f /\ f cell = nth k coeffs 0).
Proof.
  intros set_iter arr coeffs Hnd Hcover Hlen self.
  unfold self, get_function, _sum, with_vector, RegionalParameter.__init__.
  cbn [vector _ind_functions].
  split.
  - intros ->. destruct (set_iter []) as [|v vs] eqn:E.
    + destruct coeffs; reflexivity.
    + exfalso. apply (Hcover v). left. reflexivity.
  - intros cell m k Hc Hk.
    destruct (set_iter arr) as [|v vs] eqn:E; [destruct k; discriminate Hk|].
    destruct coeffs as [|c cs]; [discriminate Hlen|].
    cbn [List.map]. eexists. split; [reflexivity|]. cbv beta.
    rewrite (indicator_at arr cell m v Hc).
    apply List.NoDup_cons_iff in Hnd. destruct Hnd as [Hnin Hnd].
    destruct k as [|k].
    + injection Hk as ->. rewrite Z.eqb_refl.
      rewrite (regional_sum_absent arr cell m vs cs _ Hc Hnin). simpl. ring.
    + cbn [nth_error] in Hk.
      destruct (Z.eqb_spec m v) as [-> | _].
      * exfalso. apply Hnin. eapply nth_error_In. exact Hk.
      * rewrite (regional_sum_present arr cell m vs cs _ k Hc Hnd)
          by (try assumption; simpl in Hlen; lia).
        simpl. ring.
Qed.

End RegionalParameterProps.

Lemma X12_regional_parameter_value_witness :
  exists f,
    RegionalParameter.get_function
      (RegionalParameter.with_vector
         (RegionalParameter.__init__ (List.nodup Z.eq_dec) [1; 2; 1; 3]%Z)
         [10; 20; 30])
    = Ok f
    /\ f 2%nat = 20.
Proof.
  destruct (X12_regional_parameter_value (List.nodup Z.eq_dec) [1; 2; 1; 3]%Z
              [10; 20; 30])
    as [_ Hcell].
  - apply List.NoDup_nodup.
  - intros v. apply List.nodup_In.
  - reflexivity.
  - destruct (Hcell 2%nat 1%Z 1%nat eq_refl eq_refl) as [f [Hf Hv]].
    exists f. split; [exact Hf | exact Hv].
Defined.

(** ** Merging control regions *)

Section MergeControlProps.
Import MergeControl.

Lemma insert_sorted_In (x y : nat) (l : list nat) :
  In y (insert_sorted x l) <-> y = x \/ In y l.
Proof.
  induction l as [|z l IH]; simpl.
  - intuition.
  - destruct (z <? x)%nat; simpl; [rewrite IH|]; intuition.
Qed.

Lemma sorted_In (y : nat) (l : list nat) : In y (sorted l) <-> In y l.
Proof.
  induction l as [|x l IH]; simpl; [reflexivity|].
  rewrite insert_sorted_In, IH. intuition.
Qed.

Lemma insert_sorted_head (x : nat) (l : list nat) :
  (forall y, In y l -> (hd 0%nat l <= y)%nat) ->
  forall y, In y (insert_sorted x l) -> (hd 0%nat (insert_sorted x l) <= y)%nat.
Proof.
  intros Hl y Hy. destruct l as [|z l]; simpl in *.
  - destruct Hy as [<- | []]. lia.
  - destruct (Nat.ltb_spec z x) as [Hgt | Hle]; simpl in *.
    + destruct Hy as [<- | Hy]; [lia|].
      apply insert_sorted_In in Hy. destruct Hy as [-> | Hy]; [lia|].
      apply Hl. right. exact Hy.
    + destruct Hy as [<- | Hy]; [lia|]. specialize (Hl y Hy). lia.
Qed.

Lemma group_min_least (g : list nat) (y : nat) :
  In y g -> (group_min g <= y)%nat.
Proof.
  unfold group_min. intros Hy. apply sorted_In in Hy. revert y Hy.
  induction g as [|x g IH]; simpl; [intros y []|].
  apply insert_sorted_head. exact IH.
Qed.

Lemma group_min_member (g : list nat) : g <> [] -> In (group_min g) g.
Proof.
  intros Hne. apply sorted_In. unfold group_min.
  destruct (sorted g) as [|m rest] eqn:E.
  - destruct g as [|x g]; [contradiction|].
    assert (Hx : In x (sorted (x :: g))) by (apply sorted_In; left; reflexivity).
    rewrite E in Hx. destruct Hx.
  - left. reflexivity.
Qed.

Lemma relabel_all (min_val : nat) (rest arr : list nat) (cell x : nat) :
  nth_error arr cell = Some x ->
  nth_error (fold_left (fun a vi => relabel vi min_val a) rest arr) cell
  = Some (if existsb (Nat.eqb x) rest then min_val
          else x)
  \/ (x = min_val /\
      nth_error (fold_left (fun a vi => relabel vi min_val a) rest arr) cell
      = Some min_val).
Proof.
  revert arr x. induction rest as [|vi rest IH]; intros arr x Hx.
  - left. simpl. exact Hx.
  - cbn [fold_left existsb].
    assert (Hstep : nth_error (relabel vi min_val arr) cell
                    = Some (if (x =? vi)%nat then min_val else x)).
    { unfold relabel. rewrite List.nth_error_map, Hx. reflexivity. }
    destruct (Nat.eqb_spec x vi) as [-> | Hne].
    + destruct (IH _ _ Hstep) as [H | [_ H]].
      * destruct (existsb (Nat.eqb min_val) rest); left; simpl; exact H.
      * left. simpl. exact H.
    + destruct (IH _ _ Hstep) as [H | [Hm H]]; [left; exact H|].
      right. split; assumption.
Qed.

Lemma merge_group_cell (arr g : list nat) (cell x : nat) :
  g <> [] ->
  nth_error arr cell = Some x ->
  exists arr',
    merge_group arr g = Ok arr'
    /\ length arr' = length arr
    /\ nth_error arr' cell = Some (if existsb (Nat.eqb x) g then group_min g else x).
Proof.
  intros Hne Hx. unfold merge_group.
  pose proof (group_min_member g Hne) as Hmem. unfold group_min in *.
  destruct (sorted g) as [|mn rest] eqn:E.
  - destruct g as [|y g]; [contradiction|].
    assert (Hy : In y (sorted (y :: g))) by (apply sorted_In; left; reflexivity).
    rewrite E in Hy. destruct Hy.
  - simpl in Hmem. eexists. split; [reflexivity|]. split.
    + clear. revert arr. induction rest as [|vi rest IH]; intros arr; simpl.
      * reflexivity.
      * rewrite IH. unfold relabel. apply List.length_map.
    + assert (Hg : existsb (Nat.eqb x) g = (x =? mn)%nat || existsb (Nat.eqb x) rest).
      { apply Bool.eq_iff_eq_true. rewrite Bool.orb_true_iff, !existsb_exists.
        split.
        - intros [y [Hy Hxy]]. apply Nat.eqb_eq in Hxy. subst y.
          apply sorted_In in Hy. rewrite E in Hy. destruct Hy as [<- | Hy].
          + left. apply Nat.eqb_refl.
          + right. exists x. split; [exact Hy | apply Nat.eqb_refl].
        - intros [Hxm | [y [Hy Hxy]]].
          + apply Nat.eqb_eq in Hxm. subst x. exists mn.
            split; [exact Hmem | apply Nat.eqb_refl].
          + exists y. split; [|exact Hxy]. apply sorted_In. rewrite E.
            right. exact Hy. }
      rewrite Hg. simpl hd.
      destruct (relabel_all mn rest arr cell x Hx) as [H | [-> H]].
      * rewrite H. destruct (Nat.eqb_spec x mn) as [-> | _]; simpl.
        -- destruct (existsb (Nat.eqb mn) rest); reflexivity.
        -- reflexivity.
      * rewrite H, Nat.eqb_refl. reflexivity.
Qed.

Lemma in_group (x : nat) (g : list nat) :
  existsb (Nat.eqb x) g = true <-> In x g.
Proof.
  rewrite existsb_exists. split.
  - intros [y [Hy Hxy]]. apply Nat.eqb_eq in Hxy. now subst.
  - intros Hx. exists x. split; [exact Hx | apply Nat.eqb_refl].
Qed.

Lemma merge_groups_cell (groups : list (list nat)) :
  ForallOrdPairs disjoint_groups groups ->
  List.Forall (fun g => g <> []) groups ->
  forall (arr : list nat) (cell x : nat),
    nth_error arr cell = Some x ->
    exists out,
      merge_groups arr groups = Ok out
      /\ length out = length arr
      /\ ((forall g, In g groups -> ~ In x g) -> nth_error out cell = Some x)
      /\ (forall g, In g groups -> In x g ->
            nth_error out cell = Some (group_min g)).
Proof.
  induction groups as [|g rest IH]; intros Hdisj Hne arr cell x Hx.
  - exists arr. simpl. split; [reflexivity|]. split; [reflexivity|].
    split; [intros _; exact Hx | intros g []].
  - inversion Hdisj as [|? ? Hg Hrest]; subst.
    inversion Hne as [|? ? Hgne Hrne]; subst.
    destruct (merge_group_cell arr g cell x Hgne Hx) as [arr' [Hm [Hlen Hcell]]].
    destruct (IH Hrest Hrne arr' cell _ Hcell) as [out [Ho [Hlo [Hout Hin]]]].
    exists out. cbn [merge_groups]. rewrite Hm. cbn [bind].
    split; [exact Ho|]. split; [congruence|].
    destruct (existsb (Nat.eqb x) g) eqn:Exg.
    + apply in_group in Exg.
      assert (Hkeep : nth_error out cell = Some (group_min g)).
      { apply Hout. intros h Hh Hmin.
        rewrite List.Forall_forall in Hg.
        apply (Hg h Hh (group_min g)); [apply group_min_member; exact Hgne | exact Hmin]. }
      split.
      * intros Hnone. exfalso. apply (Hnone g); [left; reflexivity | exact Exg].
      * intros h [<- | Hh] Hxh; [exact Hkeep|].
        exfalso. rewrite List.Forall_forall in Hg. apply (Hg h Hh x Exg Hxh).
    + assert (Hnx : ~ In x g).
      { intros H. apply in_group in H. congruence. }
      split.
      * intros Hnone. apply Hout. intros h Hh. apply Hnone. right. exact Hh.
      * intros h [<- | Hh] Hxh; [contradiction|]. apply Hin; assumption.
Qed.

(** X13: merging control regions.  With an empty control string the
    markers are returned unchanged.  With groups of markers that are
    non-empty and pairwise disjoint, the result has as many cells as the
    input, every cell whose marker belongs to a group carries the smallest
    marker of that group, and every other cell keeps its marker. *)
Theorem X13_merge_control_relabels_to_group_minimum :
  forall (sfun : list nat) (groups : list (list nat)),
    ForallOrdPairs disjoint_groups groups ->
    List.Forall (fun g => g <> []) groups ->
    merge_control sfun None = Ok sfun
    /\ forall (cell x : nat),
         nth_error sfun cell = Some x ->
         exists out,
           merge_control sfun (Some groups) = Ok out
           /\ length out = length sfun
           /\ ((forall g, In g groups -> ~ In x g) -> nth_error out cell = Some x)
           /\ (forall g, In g groups -> In x g ->
                 nth_error out cell = Some (group_min g)
                 /\ In (group_min g) g
                 /\ forall y, In y g -> (group_min g <= y)%nat).
Proof.
  intros sfun groups Hdisj Hne. split; [reflexivity|].
  intros cell x Hx.
  destruct (merge_groups_cell groups Hdisj Hne sfun cell x Hx)
    as [out [Ho [Hlen [Hkeep Hin]]]].
  exists out. cbn [merge_control].
  split; [exact Ho|]. split; [exact Hlen|]. split; [exact Hkeep|].
  intros g Hg Hxg. split; [apply Hin; assumption|]. split.
  - apply group_min_member. rewrite List.Forall_forall in Hne. apply Hne. exact Hg.
  - intros y Hy. apply group_min_least. exact Hy.
Qed.

End MergeControlProps.

Lemma X13_merge_control_relabels_to_group_minimum_witness :
  exists out,
    MergeControl.merge_control [1; 2; 3; 4; 5; 3]%nat
      (Some [[3; 1]; [5; 4]]%nat) = Ok out
    /\ nth_error out 2 = Some 1%nat.
Proof.
  destruct (X13_merge_control_relabels_to_group_minimum
              [1; 2; 3; 4; 5; 3]%nat [[3; 1]; [5; 4]]%nat)
    as [_ Hcell].
  - repeat constructor; intros y [<- | [<- | []]] [H | [H | []]]; discriminate H.
  - repeat constructor; discriminate.
  - destruct (Hcell 2%nat 3%nat eq_refl) as [out [Hout [_ [_ Hin]]]].
    exists out. split; [exact Hout|].
    destruct (Hin [3; 1]%nat) as [H _]; [left; reflexivity | left; reflexivity|].
    exact H.
Defined.

(** ** Measurements *)

Section MeasurementsProps.
Import Measurements.

Lemma slice_prefix {A : Type} (l : list A) (j : nat) :
  (j <= length l)%nat -> Py.slice l 0 (Z.of_nat j) = firstn j l.
Proof.
  intros Hj. unfold Py.slice, Py.clamp. cbn [Z.ltb Z.compare].
  replace (Z.of_nat j <? 0)%Z with false by (symmetry; apply Z.ltb_ge; lia).
  rewrite Z.min_l by lia. rewrite Z.min_l by lia.
  rewrite Nat2Z.id. cbn [Z.to_nat skipn]. rewrite Nat.sub_0_r. reflexivity.
Qed.

(** X14: the traces [get_measurements] returns in the passive phase, with
    the geometry index "-1" and a positive volume weight, for a passive
    filling of n >= 1 points that the data cover.  Without [unload] they are
    the first n pressures, each reduced by the first pressure, and the first
    n volumes, each reduced by the offset of [get_volume_offset], which is
    the volume of point n-1 minus the number [get_volume] returned.  With
    [unload] a point is put in front (pressure 0.0, volume -1.0), the
    pressures are reduced by 0.0, and both traces have n + 1 points.  All
    subtractions are those of binary64. *)
Theorem X14_passive_measurements_shifted :
  forall (PHASES0 PHASES1 PHASES2 : string) (patient : Patient) (params : Params)
         (vol : float) (n : nat),
    phase params = PHASES0 ->
    geometry_index params = MinusOne ->
    PrimFloat.ltb 0%float (passive_volume_weight params) = true ->
    passive_filling_duration patient = Z.of_nat n ->
    (1 <= n)%nat ->
    (n <= length (volume patient))%nat ->
    (n <= length (pressure patient))%nat ->
    let off := PrimFloat.sub (nth (n - 1) (volume patient) 0%float) vol in
    get_volume_offset patient params vol = Ok off
    /\ get_measurements PHASES0 PHASES1 params patient vol
       = Ok (if unload params
             then mkMeasured
                    (np_subtract (0%float :: firstn n (pressure patient)) 0%float)
                    (Some ((-1)%float :: np_subtract (firstn n (volume patient)) off))
             else mkMeasured
                    (np_subtract (firstn n (pressure patient))
                                 (nth 0 (pressure patient) 0%float))
                    (Some (np_subtract (firstn n (volume patient)) off))).
Proof.
  intros PHASES0 PHASES1 PHASES2 patient params vol n
         Hphase Hgeo Hw Hpfd Hn Hvol Hpr off.
  assert (Hoff : get_volume_offset patient params vol = Ok off).
  { unfold get_volume_offset. rewrite Hgeo, Hpfd.
    replace (Z.of_nat n - 1)%Z with (Z.of_nat (n - 1)) by lia.
    rewrite (index_in_range (volume patient) (n - 1) 0%float) by lia.
    reflexivity. }
  split; [exact Hoff|].
  unfold get_measurements.
  rewrite Hphase, String.eqb_refl, Hw, Hpfd, Hoff. cbn [orb].
  assert (Hv0 : Py.index (volume patient) 0
                = Ok (nth 0 (volume patient) 0%float)).
  { apply (index_in_range (volume patient) 0). lia. }
  assert (Hs0 : Py.index (np_subtract (volume patient) off) 0
                = Ok (nth 0 (np_subtract (volume patient) off) 0%float)).
  { apply (index_in_range _ 0). unfold np_subtract. rewrite List.length_map. lia. }
  assert (Hp0 : Py.index (pressure patient) 0
                = Ok (nth 0 (pressure patient) 0%float)).
  { apply (index_in_range (pressure patient) 0). lia. }
  destruct (unload params).
  - cbn [bind]. rewrite Hv0. cbn [bind]. rewrite Hs0. cbn [bind].
    replace (Z.of_nat n + 1)%Z with (Z.of_nat (S n)) by lia.
    rewrite !slice_prefix
      by (unfold np_subtract; rewrite ?List.length_map; cbn [length];
          rewrite ?List.length_map; lia).
    unfold np_subtract. cbn [firstn List.map].
    rewrite !List.firstn_map. reflexivity.
  - rewrite Hp0. cbn [bind]. rewrite Hv0. cbn [bind]. rewrite Hs0. cbn [bind].
    rewrite !slice_prefix by (unfold np_subtract; rewrite ?List.length_map; lia).
    unfold np_subtract. rewrite !List.firstn_map. reflexivity.
Qed.

End MeasurementsProps.

Lemma X14_passive_measurements_shifted_witness :
  Measurements.get_measurements "passive_inflation" "active_contraction"
    (Measurements.mkParams "passive_inflation" false Measurements.MinusOne
                           1%float 1%float)
    (Measurements.mkPatient [2%float; 3%float; 5%float]
                            [100%float; 110%float; 120%float] 2 3)
    90%float
  = Ok (Measurements.mkMeasured
          [0%float; 1%float] (Some [80%float; 90%float])).
Proof.
  destruct (X14_passive_measurements_shifted
              "passive_inflation" "active_contraction" "all"
              (Measurements.mkPatient [2%float; 3%float; 5%float]
                                      [100%float; 110%float; 120%float] 2 3)
              (Measurements.mkParams "passive_inflation" false
                                     Measurements.MinusOne 1%float 1%float)
              90%float 2)
    as [_ Hm].
  - reflexivity.
  - reflexivity.
  - reflexivity.
  - reflexivity.
  - lia.
  - simpl. lia.
  - simpl. lia.
  - rewrite Hm. reflexivity.
Defined.

(** ** The basal boundary expression *)

Section BaseExpressionProps.
Import BaseExpression.

Lemma index_defined {A : Type} (l : list A) (i : Z) :
  (- Z.of_nat (length l) <= i < Z.of_nat (length l))%Z ->
  exists x, Py.index l i = Ok x /\ In x l.
Proof.
  intros Hi. unfold Py.index.
  destruct ((0 <=? i)%Z && (i <? Z.of_nat (length l))%Z) eqn:E1.
  - apply andb_prop in E1. destruct E1 as [H0 H1].
    apply Z.leb_le in H0. apply Z.ltb_lt in H1.
    destruct (nth_error l (Z.to_nat i)) as [x|] eqn:E.
    + exists x. split; [reflexivity | eapply nth_error_In; exact E].
    + apply nth_error_None in E. lia.
  - assert (Hneg : (i < 0)%Z).
    { destruct (Z.leb_spec 0 i) as [H0 | H0]; [|exact H0].
      destruct (Z.ltb_spec i (Z.of_nat (length l))); [discriminate E1 | lia]. }
    replace ((- Z.of_nat (length l) <=? i)%Z && (i <? 0)%Z) with true
      by (symmetry; apply andb_true_intro; split;
          [apply Z.leb_le | apply Z.ltb_lt]; lia).
    destruct (nth_error l (Z.to_nat (Z.of_nat (length l) + i))) as [x|] eqn:E.
    + exists x. split; [reflexivity | eapply nth_error_In; exact E].
    + apply nth_error_None in E. lia.
Qed.

Lemma index_Ok_range {A : Type} (l : list A) (i : Z) (x : A) :
  Py.index l i = Ok x ->
  (- Z.of_nat (length l) <= i < Z.of_nat (length l))%Z /\ In x l.
Proof.
  unfold Py.index. intros H.
  destruct ((0 <=? i)%Z && (i <? Z.of_nat (length l))%Z) eqn:E1.
  - apply andb_prop in E1. destruct E1 as [H0 H1].
    apply Z.leb_le in H0. apply Z.ltb_lt in H1.
    destruct (nth_error l (Z.to_nat i)) eqn:E; [|discriminate H].
    injection H as <-. split; [lia | eapply nth_error_In; exact E].
  - destruct ((- Z.of_nat (length l) <=? i)%Z && (i <? 0)%Z) eqn:E2;
      [|discriminate H].
    apply andb_prop in E2. destruct E2 as [H0 H1].
    apply Z.leb_le in H0. apply Z.ltb_lt in H1.
    destruct (nth_error l (Z.to_nat (Z.of_nat (length l) + i))) eqn:E;
      [|discriminate H].
    injection H as <-. split; [lia | eapply nth_error_In; exact E].
Qed.

Lemma d_intersect_in_mesh (mesh : list vertex) (x : vertex) (idx : nat) :
  In idx (d_intersect mesh x) -> (idx < length mesh)%nat.
Proof.
  unfold d_intersect. intros H. apply List.filter_In in H.
  destruct H as [H _]. apply List.in_seq in H. lia.
Qed.

Lemma base_expression_init_in_step
    (mesh_verts : list vertex) (seg_verts : list (list vertex)) (sub : string)
    (self : BaseExpression) :
  __init__ mesh_verts seg_verts sub = Ok self -> in_step self.
Proof.
  unfold __init__. intros H.
  destruct (Material.str_in sub ["y"; "z"]); [|discriminate H].
  destruct (Py.index seg_verts 0) as [first|] eqn:E; [|discriminate H].
  cbn [bind] in H. injection H as <-.
  split; cbn; [lia | exact E].
Qed.

(** X15: the steps of the basal displacement chain at their end points.
    When every segmentation lists as many vertices as the mesh base, the
    expression is in step (its current segmentation is the one [point]
    refers to, as after [__init__] and after every [__next__]) and [x] is
    exactly one vertex [idx] of the mesh base, then [eval] returns
    u_prev + t * (u_current - u_prev) in binary64 arithmetic, and after
    [__next__] the expression is in step again, [t] is 0.0 and the new u_prev
    is the old u_current.  The returned values themselves need not agree:
    with the mesh coordinate 0 and the segmentations -0.7, -0.1 and 5, the
    value at the end of the second step ([t] = 1) is below 0.1, and the value
    right after [__next__] is 0.1. *)
Theorem X15_base_expression_endpoints_chain :
  (forall (self self' : BaseExpression) (it it' : Iterator) (x : vertex)
          (idx : nat),
      in_step self ->
      List.Forall (fun seg => length seg = length (_mesh_verts self))
                  (_all_seg_verts self) ->
      d_intersect (_mesh_verts self) x = [idx] ->
      __next__ self it = Ok (self', it') ->
      in_step self'
      /\ t it' = 0%float
      /\ exists a b c : float,
           u_prev self idx = Ok a
           /\ u_current self idx = Ok b
           /\ u_prev self' idx = Ok b
           /\ u_current self' idx = Ok c
           /\ (forall it0 : Iterator,
                  eval self it0 x
                  = Ok (PrimFloat.add a
                          (PrimFloat.mul (t it0) (PrimFloat.sub b a))))
           /\ eval self' it' x
              = Ok (PrimFloat.add b
                      (PrimFloat.mul 0%float (PrimFloat.sub c b))))
  /\ (let mesh := [(0, 0, 0)]%float in
      let segs := [[(0, - (7 / 10), 0)]; [(0, - (1 / 10), 0)]; [(0, 5, 0)]]%float in
      exists (s0 s1 s2 : BaseExpression) (i1 i2 : Iterator) (v : float),
        __init__ mesh segs "y" = Ok s0
        /\ __next__ s0 (mkIterator 1%float) = Ok (s1, i1)
        /\ __next__ s1 (mkIterator 1%float) = Ok (s2, i2)
        /\ eval s1 (mkIterator 1%float) (0, 0, 0)%float = Ok v
        /\ PrimFloat.ltb v (1 / 10)%float = true
        /\ eval s2 i2 (0, 0, 0)%float = Ok (1 / 10)%float).
Proof.
  split.
  - intros self self' it it' x idx [Hpos Hstep] Hrect Hd Hnext.
    unfold __next__ in Hnext.
    destruct (Py.index (_all_seg_verts self) (point self + 1)) as [seg'|] eqn:Eseg;
      [|discriminate Hnext].
    cbn [bind] in Hnext. injection Hnext as <- <-.
    split.
    { split; cbn [point _all_seg_verts _seg_verts]; [lia | exact Eseg]. }
    split; [reflexivity|].
    assert (Hidx : (idx < length (_mesh_verts self))%nat).
    { apply (d_intersect_in_mesh _ x). rewrite Hd. left. reflexivity. }
    rewrite List.Forall_forall in Hrect.
    destruct (index_Ok_range _ _ _ Hstep) as [Hrange Hin].
    destruct (index_Ok_range _ _ _ Eseg) as [_ Hin'].
    destruct (index_defined (_all_seg_verts self) (point self - 1))
      as [prev [Hprev Hinp]]; [lia|].
    set (d := (0%float, 0%float, 0%float) : vertex).
    assert (Hm : Py.index (_mesh_verts self) (Z.of_nat idx)
                 = Ok (nth idx (_mesh_verts self) d))
      by (apply index_in_range; exact Hidx).
    assert (Hs : Py.index (_seg_verts self) (Z.of_nat idx)
                 = Ok (nth idx (_seg_verts self) d))
      by (apply index_in_range; rewrite (Hrect _ Hin); exact Hidx).
    assert (Hp : Py.index prev (Z.of_nat idx) = Ok (nth idx prev d))
      by (apply index_in_range; rewrite (Hrect _ Hinp); exact Hidx).
    assert (Hs' : Py.index seg' (Z.of_nat idx) = Ok (nth idx seg' d))
      by (apply index_in_range; rewrite (Hrect _ Hin'); exact Hidx).
    set (k := component self).
    exists (PrimFloat.sub (coord (nth idx (_mesh_verts self) d) k)
                          (coord (nth idx prev d) k)),
           (PrimFloat.sub (coord (nth idx (_mesh_verts self) d) k)
                          (coord (nth idx (_seg_verts self) d) k)),
           (PrimFloat.sub (coord (nth idx (_mesh_verts self) d) k)
                          (coord (nth idx seg' d) k)).
    assert (Ha : u_prev self idx
                 = Ok (PrimFloat.sub (coord (nth idx (_mesh_verts self) d) k)
                                     (coord (nth idx prev d) k))).
    { unfold u_prev. rewrite Hprev. cbn [bind]. rewrite Hm. cbn [bind].
      rewrite Hp. reflexivity. }
    assert (Hb : u_current self idx
                 = Ok (PrimFloat.sub (coord (nth idx (_mesh_verts self) d) k)
                                     (coord (nth idx (_seg_verts self) d) k))).
    { unfold u_current. rewrite Hm. cbn [bind]. rewrite Hs. reflexivity. }
    split; [exact Ha|]. split; [exact Hb|].
    assert (Hb' : u_prev
                    (mkBaseExpression (_mesh_verts self) (_all_seg_verts self)
                       (point self + 1) (npoints self) seg' (_sub self)) idx
                  = Ok (PrimFloat.sub (coord (nth idx (_mesh_verts self) d) k)
                                      (coord (nth idx (_seg_verts self) d) k))).
    { unfold u_prev, component.
      cbn [_mesh_verts _all_seg_verts point _seg_verts _sub].
      replace (point self + 1 - 1)%Z with (point self) by lia.
      rewrite Hstep. cbn [bind]. rewrite Hm. cbn [bind]. rewrite Hs.
      reflexivity. }
    assert (Hc : u_current
                   (mkBaseExpression (_mesh_verts self) (_all_seg_verts self)
                      (point self + 1) (npoints self) seg' (_sub self)) idx
                 = Ok (PrimFloat.sub (coord (nth idx (_mesh_verts self) d) k)
                                     (coord (nth idx seg' d) k))).
    { unfold u_current, component.
      cbn [_mesh_verts _all_seg_verts point _seg_verts _sub].
      rewrite Hm. cbn [bind]. rewrite Hs'. reflexivity. }
    split; [exact Hb'|]. split; [exact Hc|].
    split.
    + intros it0. unfold eval. rewrite Hd.
      destruct (_mesh_verts self) as [|v0 mesh] eqn:Emesh;
        [cbn [length] in Hidx; lia|].
      rewrite Ha, Hb. reflexivity.
    + unfold eval. cbn [_mesh_verts t]. rewrite Hd.
      destruct (_mesh_verts self) as [|v0 mesh] eqn:Emesh;
        [cbn [length] in Hidx; lia|].
      rewrite Hb', Hc. reflexivity.
  - cbv zeta. do 6 eexists.
    split; [vm_compute; reflexivity|].
    split; [vm_compute; reflexivity|].
    split; [vm_compute; reflexivity|].
    split; [vm_compute; reflexivity|].
    split; vm_compute; reflexivity.
Qed.

End BaseExpressionProps.

Lemma X15_base_expression_endpoints_chain_witness :
  exists (self self' : BaseExpression.BaseExpression)
         (it' : BaseExpression.Iterator) (b : float),
    BaseExpression.__init__ [(0, 1, 0)%float]
      [[(0, 3, 0)%float]; [(0, 4, 0)%float]] "y" = Ok self
    /\ BaseExpression.__next__ self (BaseExpression.mkIterator 1%float)
       = Ok (self', it')
    /\ BaseExpression.u_current self 0 = Ok b
    /\ BaseExpression.u_prev self' 0 = Ok b.
Proof.
  destruct X15_base_expression_endpoints_chain as [Hgen _].
  destruct (Hgen _ _ (BaseExpression.mkIterator 1%float) _ (0, 1, 0)%float 0%nat
              (base_expression_init_in_step [(0, 1, 0)%float]
                 [[(0, 3, 0)%float]; [(0, 4, 0)%float]] "y" _ eq_refl)
              ltac:(cbn; repeat constructor)
              eq_refl eq_refl)
    as [_ [_ [a [b [c [_ [Hb [Hb' _]]]]]]]].
  eexists. eexists. eexists. exists b.
  split; [reflexivity|]. split; [reflexivity|].
  split; [exact Hb | exact Hb'].
Defined.

(** ** Symmetry of the Cauchy stress *)

Section CauchySymmetry.
Import Ufl Material.

Lemma sumn_ext (n : nat) (f g : nat -> R) :
  (forall k, f k = g k) -> sumn n f = sumn n g.
Proof.
  intros Hfg. induction n as [|n IH]; simpl; [reflexivity|].
  rewrite IH, Hfg. reflexivity.
Qed.

Lemma left_cauchy_green_symmetric (d : nat) (F : mat) (i j : nat) :
  mmul d F (transpose F) i j = mmul d F (transpose F) j i.
Proof.
  unfold mmul, transpose. apply sumn_ext. intros k. ring.
Qed.

Lemma Identity_symmetric (i j : nat) : Identity i j = Identity j i.
Proof.
  unfold Identity. rewrite Nat.eqb_sym. reflexivity.
Qed.

(** X16: for every material with a fibre field, every deformation
    gradient and every pressure, [CauchyStress] returns a tensor, and that
    tensor is symmetric. *)
Theorem X16_cauchy_stress_symmetric :
  forall (m : Material) (F : Tensor) (p : R) (fib : vec),
    f0 m = Some fib ->
    exists S,
      CauchyStress m F p = Ok S
      /\ forall i j, S i j = S j i.
Proof.
  intros m F p fib Hf. unfold CauchyStress. rewrite Hf.
  assert (H1 : exists w1, W_1 m (I1 m F) 1 (geometric_dimension F) = Some w1).
  { unfold W_1. destruct (params m); cbn [Z.eqb Pos.eqb]; eexists; reflexivity. }
  assert (H4 : exists w4, W_4 m (I4f m F) 1 = Some w4).
  { unfold W_4, HO_W_4. destruct (params m); [|eexists; reflexivity].
    destruct (Req_dec_T (I4f m F) 0); cbn [Z.eqb Pos.eqb]; eexists; reflexivity. }
  assert (Ha : exists wa, Wactive m (gamma m) 0 1 = Some wa).
  { unfold Wactive. destruct (String.eqb (_active_model m) "active_stress");
      cbn [Z.eqb Pos.eqb]; eexists; reflexivity. }
  destruct H1 as [w1 H1]. destruct H4 as [w4 H4]. destruct Ha as [wa Ha].
  rewrite H1, H4, Ha. eexists. split; [reflexivity|].
  intros i j. unfold msub, madd, smul, outer, vscale.
  rewrite (left_cauchy_green_symmetric _ _ i j), (Identity_symmetric i j).
  ring.
Qed.

Lemma X16_cauchy_stress_symmetric_witness :
  exists S,
    CauchyStress Samples.stress_material Samples.F_id 0 = Ok S
    /\ forall i j, S i j = S j i.
Proof.
  apply (X16_cauchy_stress_symmetric Samples.stress_material Samples.F_id 0
           Samples.e1).
  reflexivity.
Defined.

End CauchySymmetry.

(** ** Bookkeeping of the reduced functional over many evaluations *)

Section EvaluationSeries.
Import ReducedFunctional ReducedFunctionalOps.

Lemma call_bookkeeping (for_run : ForRun) (for_time : float) (self : Self)
    (value : Value) (return_fail : bool) (w : World) :
  let '(w', self', r) := __call__ for_run for_time self value return_fail w in
  let k := match r with Ok _ => 1%nat | Raise _ => 0%nat end in
  iter self' = (iter self + 1)%Z
  /\ length (func_values_lst self') = (length (func_values_lst self) + k)%nat
  /\ length (controls_lst self') = (length (controls_lst self) + k)%nat
  /\ length (forward_times self') = (length (forward_times self) + k)%nat
  /\ (nr_crashes self <= nr_crashes self' <= nr_crashes self + Z.of_nat k)%Z
  /\ scale self' = scale self.
Proof.
  unfold __call__.
  destruct (for_run (paramvec_new_of value) true (world_at_forward self w))
    as [w1 [[res crash] | e]].
  - destruct crash; cbn -[PrimFloat.mul]; rewrite !List.length_app; cbn;
      repeat split; lia.
  - cbn. repeat split; lia.
Qed.

(** X17: bookkeeping over a series of evaluations.  [iter] counts every
    call, also those whose forward run raised; [func_values_lst],
    [controls_lst] and [forward_times] get exactly one entry per call that
    returned; [nr_crashes] never decreases and grows by at most the number
    of calls that returned. *)
Theorem X17_evaluation_bookkeeping :
  forall (reqs : list Request) (self : Self) (w : World),
    let '(w', self', rs) := evaluations self w reqs in
    length rs = length reqs
    /\ iter self' = (iter self + Z.of_nat (length reqs))%Z
    /\ length (func_values_lst self')
       = (length (func_values_lst self) + returned_count rs)%nat
    /\ length (controls_lst self')
       = (length (controls_lst self) + returned_count rs)%nat
    /\ length (forward_times self')
       = (length (forward_times self) + returned_count rs)%nat
    /\ (nr_crashes self <= nr_crashes self'
        <= nr_crashes self + Z.of_nat (returned_count rs))%Z.
Proof.
  induction reqs as [|[[[for_run for_time] value] return_fail] rest IH];
    intros self w.
  - cbn. unfold returned_count. cbn. repeat split; lia.
  - cbn [evaluations].
    pose proof (call_bookkeeping for_run for_time self value return_fail w) as Hc.
    destruct (__call__ for_run for_time self value return_fail w)
      as [[w1 self1] r].
    specialize (IH self1 w1).
    destruct (evaluations self1 w1 rest) as [[w2 self2] rs].
    cbv zeta in Hc.
    destruct Hc as [Hi [Hf [Hcl [Hft [Hcr _]]]]].
    destruct IH as [Hl [Hi2 [Hf2 [Hcl2 [Hft2 Hcr2]]]]].
    assert (Hcount : returned_count (r :: rs)
                     = ((match r with Ok _ => 1 | Raise _ => 0 end)
                        + returned_count rs)%nat).
    { unfold returned_count. cbn [List.filter]. destruct r; reflexivity. }
    rewrite Hcount. cbn [length].
    repeat split; lia.
Qed.

End EvaluationSeries.
